(** * Runhouse: environments, install cache and callable references

    A shallow embedding of
      - [runhouse/resources/envs/env.py]   (class [Env]),
      - [runhouse/resources/envs/utils.py] ([_process_env_vars],
        [run_setup_command]),
      - [runhouse/rns/send.py]             (class [Send]),
    together with the properties the specification states about them.

    Python objects that the code only reads are records; the objects it
    mutates (the process-wide [installed_envs] dictionary, the [compute]
    dictionary of an environment, the environment objects themselves in
    [Env.to]) live in explicit stores.  Exceptions are an outcome of a
    small state monad whose state survives the raise, as in Python. *)

From Stdlib Require Import ZArith Lia.
From stdpp Require Import base strings list gmap pretty.

Local Open Scope Z_scope.

(** ** Python values, truthiness, exceptions *)

Module Py.

(** The fragment of Python values that ends up in a resource configuration. *)
#[local] Set Warnings "-register-all".
Inductive pyval : Type :=
  | PNone
  | PBool (b : bool)
  | PInt (z : Z)
  | PStr (s : string)
  | PList (l : list pyval)
  | PDict (d : list (string * pyval))
  | PObj (repr : string).
#[local] Set Warnings "register-all".

(** A [dict] with string keys: insertion ordered, keys unique. *)
Abbreviation pydict := (list (string * pyval)).

Definition is_empty {A} (l : list A) : bool :=
  match l with [] => true | _ => false end.

(** [bool(v)]. *)
Definition truthy (v : pyval) : bool :=
  match v with
  | PNone => false
  | PBool b => b
  | PInt z => negb (z =? 0)
  | PStr s => negb (String.eqb s "")
  | PList l => negb (is_empty l)
  | PDict d => negb (is_empty d)
  | PObj _ => true
  end.

(** [bool(s)] for [s : Optional[str]]. *)
Definition truthy_opt_str (o : option string) : bool :=
  match o with
  | None => false
  | Some s => negb (String.eqb s "")
  end.

Definition opt_str_val (o : option string) : pyval :=
  match o with None => PNone | Some s => PStr s end.

(** [d.get(k)] *)
Fixpoint dict_get (k : string) (d : pydict) : option pyval :=
  match d with
  | [] => None
  | (k', v) :: d' => if String.eqb k k' then Some v else dict_get k d'
  end.

(** [d[k] = v]: an existing key keeps its position, a new key goes last. *)
Fixpoint dict_set (k : string) (v : pyval) (d : pydict) : pydict :=
  match d with
  | [] => [(k, v)]
  | (k', v') :: d' =>
      if String.eqb k k' then (k', v) :: d' else (k', v') :: dict_set k v d'
  end.

Fixpoint dict_remove (k : string) (d : pydict) : pydict :=
  match d with
  | [] => []
  | (k', v') :: d' =>
      if String.eqb k k' then d' else (k', v') :: dict_remove k d'
  end.

(** An exception object: its class and its message. *)
Record exn : Type := Exn { exn_type : string; exn_msg : string }.

Inductive outcome (A : Type) : Type :=
  | Return (a : A)
  | Raise (e : exn).
Arguments Return {A} a.
Arguments Raise {A} e.

(** [d.pop(k)] without a default: [KeyError] on a missing key. *)
Definition dict_pop (k : string) (d : pydict) : outcome (pyval * pydict) :=
  match dict_get k d with
  | Some v => Return (v, dict_remove k d)
  | None => Raise (Exn "KeyError" k)
  end.

(** Computations over a mutable state [S] that may raise; the state
    reached at the raise is kept. *)
Definition M (S A : Type) : Type := S -> outcome A * S.

Definition ret {S A} (a : A) : M S A := fun s => (Return a, s).
Definition raise {S A} (e : exn) : M S A := fun s => (Raise e, s).
Definition bind {S A B} (m : M S A) (f : A -> M S B) : M S B :=
  fun s =>
    match m s with
    | (Return a, s') => f a s'
    | (Raise e, s') => (Raise e, s')
    end.
Definition gets {S A} (f : S -> A) : M S A := fun s => (Return (f s), s).
Definition modify {S} (f : S -> S) : M S unit := fun s => (Return tt, f s).
Definition lift {S A} (o : outcome A) : M S A := fun s => (o, s).

(** [for x in l: body(x)] *)
Fixpoint for_each {S A} (l : list A) (body : A -> M S unit) : M S unit :=
  match l with
  | [] => ret tt
  | x :: l' => bind (body x) (fun _ => for_each l' body)
  end.

End Py.

Import Py.

Declare Scope py_scope.
Delimit Scope py_scope with py.
Notation "x <- m ;; k" := (bind m (fun x => k))
  (at level 100, m at next level, right associativity) : py_scope.
Notation "m ;;; k" := (bind m (fun _ => k))
  (at level 100, right associativity) : py_scope.
Local Open Scope py_scope.

(** ** The environment manager ([runhouse/resources/envs/env.py]) *)

Module EnvModel.

(** *** Data *)

(** A [Folder]: a path on some file system. *)
Record Folder : Type := { folder_path : string; folder_system : string }.

(** [Package.install_target] is a bare string or a [Folder]. *)
Inductive install_target_t : Type :=
  | TargetStr (s : string)
  | TargetFolder (f : Folder).

Record Package : Type := {
  install_target : install_target_t;
  install_method : string
}.

(** An element of a requirement list: a [str], a [Package], or any other
    object (one that is no [str] and has no [_install] attribute). *)
Inductive req : Type :=
  | ReqStr (s : string)
  | ReqPkg (p : Package)
  | ReqOther (repr : string).

(** [env_vars]: a mapping, or the path of a dotenv file. *)
Inductive env_vars_t : Type :=
  | EnvVarsDict (d : list (string * string))
  | EnvVarsFile (path : string).

Record Secret : Type := { secret_name : string; secret_system : option string }.

(** An element of [Env.secrets]: a name or a [Secret] resource. *)
Inductive secret_ref : Type :=
  | SecretName (s : string)
  | SecretObj (s : Secret).

(** The attributes of a [Cluster] the environment code reads. *)
Record Cluster : Type := {
  cluster_name : string;
  ips : list string;
  default_env_name : string;
  default_env_run_cmd : string;
  on_this_cluster : bool
}.

(** [system: Union[str, Cluster]] *)
Inductive system_t : Type :=
  | SysStr (s : string)
  | SysCluster (c : Cluster).

(** The attributes set by [Env.__init__].  [C] is what the [compute]
    attribute holds: the dictionary itself where the object is only read,
    a reference into the store of dictionaries where it can be mutated. *)
Record Env_ (C : Type) : Type := MkEnv {
  name : option string;
  _reqs : option (list req);
  setup_cmds : option (list string);
  env_vars : env_vars_t;
  working_dir : option req;
  secrets : list secret_ref;
  compute : option C
}.
Arguments MkEnv {C}.
Arguments name {C}.
Arguments _reqs {C}.
Arguments setup_cmds {C}.
Arguments env_vars {C}.
Arguments working_dir {C}.
Arguments secrets {C}.
Arguments compute {C}.

(** An environment as a value: [compute] is the dictionary. *)
Abbreviation Env := (Env_ pydict).

(** A reference to an object in a store. *)
Abbreviation loc := nat (only parsing).

(** An environment object on the client: [compute] refers to a dictionary
    object, which [Env.to] may update in place. *)
Abbreviation EnvObj := (Env_ loc).

(** The arguments of the methods [Env.to] invokes through [Cluster.call]. *)
Inductive call_args : Type :=
  | ArgsSetEnvVars (vars : list (string * string))
  | ArgsInstall (force : bool)
  | ArgsInstallReqs (reqs : list req)
  | ArgsRunSetupCmds (setup_cmds : option (list string)).

(** *** Collaborators

    Builtins and code outside the three source files, taken as an
    interface: every theorem holds for every implementation of it. *)
Class Externals : Type := {
  (** [str(d)] on a configuration dictionary *)
  py_str : pydict -> string;
  (** [hash(s)] on a string, fixed for the life of a process *)
  py_hash : string -> Z;
  (** [Resource.config]: the entries the base class contributes, as a
      function of the name of the resource *)
  Resource_config : option string -> pydict;
  (** [Package.config] *)
  Package_config : Package -> pyval;
  (** [str(pkg)] *)
  Package_str : Package -> string;
  Package_from_string : string -> Package;
  (** [Package.to(system, path=path, mount=mount)] returns a new package *)
  Package_to : Package -> system_t -> option string -> bool -> Package;
  (** [Package._install(env, cluster)]: [None] when the installer returns *)
  Package__install : Package -> Env -> option Cluster -> option exn;
  (** [dotenv_values] on the located file *)
  _env_vars_from_file : string -> list (string * string);
  Secret_from_name : string -> Secret;
  (** [Secret.to(system, env)] *)
  Secret_to : Secret -> system_t -> Env -> outcome Secret;
  _get_cluster_from : system_t -> system_t;
  (** [Cluster.put_resource(env)] returns the key of the stored resource *)
  Cluster_put_resource : Cluster -> Env -> outcome string;
  (** [Cluster.call(key, method, ...)]: [None] when the remote call returns *)
  Cluster_call : Cluster -> string -> string -> call_args -> option exn
}.

Section WithExternals.
Context `{Externals}.

(** *** Properties of [Env] *)

(** [Env.env_name]: [self.name or "base"]. *)
Definition env_name {C} (self : Env_ C) : option string :=
  if truthy_opt_str (name self) then name self else Some "base".

(** [bool(r)] for [r : Optional[Union[str, Path, Package]]]: [None] and
    the empty string are false, every other object is true. *)
Definition truthy_opt_req (o : option req) : bool :=
  match o with
  | None => false
  | Some (ReqStr s) => negb (String.eqb s "")
  | Some _ => true
  end.

(** [l or []] *)
Definition list_or_empty {A} (o : option (list A)) : list A :=
  match o with None => [] | Some l => l end.

(** [Env.reqs] (the property):
    [(self._reqs or []) + ([self.working_dir] if self.working_dir else [])] *)
Definition reqs {C} (self : Env_ C) : list req :=
  list_or_empty (_reqs self) ++
  (if truthy_opt_req (working_dir self)
   then match working_dir self with Some w => [w] | None => [] end
   else []).

(** *** Serialized configuration *)

(** [self.__getattribute__(attr)] for the attributes [Env.config] saves. *)
Definition attr_value (self : Env) (attr : string) : pyval :=
  if String.eqb attr "setup_cmds" then
    match setup_cmds self with
    | None => PNone
    | Some l => PList (PStr <$> l)
    end
  else if String.eqb attr "env_vars" then
    match env_vars self with
    | EnvVarsDict d => PDict (prod_map id PStr <$> d)
    | EnvVarsFile path => PStr path
    end
  else if String.eqb attr "env_name" then opt_str_val (env_name self)
  else if String.eqb attr "compute" then
    match compute self with
    | None => PNone
    | Some d => PDict d
    end
  else PNone.

(** Modelled from the spec: [Resource.save_attrs_to_config] is not among
    the source files.  The serialized configuration of the spec holds the
    attributes of the environment, so the helper stores each listed
    attribute under its own name; an attribute whose value is falsy is
    left out. *)
Definition save_attrs_to_config (self : Env) (config : pydict)
    (attrs : list string) : pydict :=
  fold_left
    (fun config attr =>
       let val := attr_value self attr in
       if truthy val then dict_set attr val config else config)
    attrs config.

(** Modelled from the spec: [Resource._resource_string_for_subconfig] is
    not among the source files.  A string shorthand and [None] are kept as
    they are, a package descriptor is replaced by its own configuration. *)
Definition _resource_string_for_subconfig (r : option req) : pyval :=
  match r with
  | None => PNone
  | Some (ReqStr s) => PStr s
  | Some (ReqPkg p) => Package_config p
  | Some (ReqOther repr) => PObj repr
  end.

(** [Env.config].  Iterating [self._reqs] raises when it is [None]. *)
Definition config (self : Env) : outcome pydict :=
  let config := Resource_config (name self) in
  let config :=
    save_attrs_to_config self config
      ["setup_cmds"; "env_vars"; "env_name"; "compute"] in
  match _reqs self with
  | None => Raise (Exn "TypeError" "'NoneType' object is not iterable")
  | Some l =>
      Return
        (dict_set "working_dir"
           (_resource_string_for_subconfig (working_dir self))
           (dict_set "reqs"
              (PList ((fun package => _resource_string_for_subconfig (Some package)) <$> l))
              config))
  end.

(** *** The node process: install cache and side effects *)

Inductive event : Type :=
  | EvLogDebug (msg : string)
  (** [pkg._install(env=self, cluster=cluster)] was invoked *)
  | EvPackageInstall (pkg : Package) (cluster : option Cluster)
  (** [run_with_logs(cmd, ...)]: a local shell command *)
  | EvRunWithLogs (cmd : string)
  (** [cluster._run_commands_with_ssh(cmds, env_vars=...)] *)
  | EvRunSsh (c : Cluster) (cmds : list string) (vars : list (string * string)).

(** [obj_store]: the install cache, and the side effects performed so far,
    oldest first. *)
Record obj_store : Type := MkStore {
  installed_envs : gmap Z (option string);
  effects : list event
}.

Definition emit (e : event) : M obj_store unit :=
  modify (fun st => MkStore (installed_envs st) (effects st ++ [e])).

(** [_process_env_vars] *)
Definition _process_env_vars (v : env_vars_t) : list (string * string) :=
  match v with
  | EnvVarsFile path => _env_vars_from_file path
  | EnvVarsDict d => d
  end.

(** [run_setup_command]; its result is dropped by the caller. *)
Definition run_setup_command (cmd : string) (cluster : option Cluster)
    (vars : list (string * string)) : M obj_store unit :=
  match cluster with
  | None => emit (EvRunWithLogs cmd)
  | Some c =>
      if on_this_cluster c then
        let cmd_prefix := default_env_run_cmd c in
        let cmd :=
          if negb (String.eqb cmd_prefix "")
          then cmd_prefix +:+ " " +:+ cmd else cmd in
        emit (EvRunWithLogs cmd)
      else emit (EvRunSsh c [cmd] vars)
  end.

(** [Env._run_cmd]: the empty string for a plain [Env]. *)
Definition _run_cmd {C} (self : Env_ C) : string := "".

(** The package an element of the requirement list stands for
    (the first half of the loop body of [_install_reqs]). *)
Definition resolve_package (cluster : option Cluster) (package : req)
    : outcome Package :=
  match package with
  | ReqStr s =>
      let pkg := Package_from_string s in
      Return
        (match cluster with
         | Some c =>
             if bool_decide (install_method pkg ∈ ["reqs"; "local"])
             then Package_to pkg (SysCluster c) None false
             else pkg
         | None => pkg
         end)
  | ReqPkg p => Return p
  | ReqOther repr =>
      Raise (Exn "ValueError" ("package " +:+ repr +:+ " not recognized"))
  end.

(** The loop body of [_install_reqs]. *)
Definition install_package (self : Env) (cluster : option Cluster)
    (package : req) : M obj_store unit :=
  pkg <- lift (resolve_package cluster package) ;;
  emit (EvLogDebug ("Installing package: " +:+ Package_str pkg)) ;;;
  emit (EvPackageInstall pkg cluster) ;;;
  match Package__install pkg self cluster with
  | None => ret tt
  | Some e => raise e
  end.

(** [Env._install_reqs] *)
Definition _install_reqs (self : Env) (cluster : option Cluster)
    (reqs_arg : option (list req)) : M obj_store unit :=
  let reqs :=
    if is_empty (list_or_empty reqs_arg) then reqs self
    else list_or_empty reqs_arg in
  for_each reqs (install_package self cluster).

(** [Env._run_setup_cmds] *)
Definition _run_setup_cmds (self : Env) (cluster : option Cluster)
    (setup_cmds_arg : option (list string)) : M obj_store unit :=
  let setup_cmds :=
    if is_empty (list_or_empty setup_cmds_arg) then setup_cmds self
    else setup_cmds_arg in
  if is_empty (list_or_empty setup_cmds) then ret tt
  else
    for_each (list_or_empty setup_cmds) (fun cmd =>
      let cmd :=
        if negb (String.eqb (_run_cmd self) "")
        then _run_cmd self +:+ " " +:+ cmd else cmd in
      run_setup_command cmd cluster (_process_env_vars (env_vars self))).

(** [Env.install] *)
Definition install (self : Env) (force : bool) (cluster : option Cluster)
    : M obj_store unit :=
  env_config <- lift (config self) ;;
  popped <- lift (dict_pop "name" env_config) ;;
  let env_config := popped.2 in
  let install_hash := py_hash (py_str env_config) in
  installed <- gets installed_envs ;;
  if bool_decide (install_hash ∈ dom installed) && negb force then
    emit (EvLogDebug "Env already installed, skipping")
  else
    modify (fun st =>
      MkStore (<[install_hash := name self]> (installed_envs st)) (effects st)) ;;;
    _install_reqs self cluster None ;;;
    _run_setup_cmds self cluster None.

(** The dictionary [install] hashes: the configuration without ["name"]. *)
Definition hashed_config (self : Env) : outcome pydict :=
  match config self with
  | Raise e => Raise e
  | Return env_config =>
      match dict_pop "name" env_config with
      | Raise e => Raise e
      | Return popped => Return popped.2
      end
  end.

(** The cache key [install] computes in its first lines. *)
Definition install_hash (self : Env) : outcome Z :=
  match hashed_config self with
  | Raise e => Raise e
  | Return env_config => Return (py_hash (py_str env_config))
  end.

(** What one iteration of the loop of [_install_reqs] adds to the side
    effects (nothing when the element is not recognized). *)
Definition package_events (cluster : option Cluster) (package : req)
    : list event :=
  match resolve_package cluster package with
  | Return pkg =>
      [EvLogDebug ("Installing package: " +:+ Package_str pkg);
       EvPackageInstall pkg cluster]
  | Raise _ => []
  end.

(** The installer of this element returns. *)
Definition installs_ok (self : Env) (cluster : option Cluster)
    (package : req) : Prop :=
  exists pkg, resolve_package cluster package = Return pkg /\
              Package__install pkg self cluster = None.

(** The installation of this element raises [e]. *)
Definition install_fails (self : Env) (cluster : option Cluster)
    (package : req) (e : exn) : Prop :=
  resolve_package cluster package = Raise e \/
  exists pkg, resolve_package cluster package = Return pkg /\
              Package__install pkg self cluster = Some e.

(** What [run_setup_command] adds to the side effects. *)
Definition setup_event (cluster : option Cluster)
    (vars : list (string * string)) (cmd : string) : event :=
  match cluster with
  | None => EvRunWithLogs cmd
  | Some c =>
      if on_this_cluster c then
        EvRunWithLogs
          (if negb (String.eqb (default_env_run_cmd c) "")
           then default_env_run_cmd c +:+ " " +:+ cmd else cmd)
      else EvRunSsh c [cmd] vars
  end.

(** What [_run_setup_cmds] adds to the side effects. *)
Definition setup_events (self : Env) (cluster : option Cluster)
    : list event :=
  setup_event cluster (_process_env_vars (env_vars self)) <$>
    list_or_empty (setup_cmds self).

(** The side effects proper: package installs and shell commands. *)
Definition performed (t : list event) : list event :=
  List.filter
    (fun e => match e with EvLogDebug _ => false | _ => true end) t.

(** The environment under another name. *)
Definition rename {C} (n : option string) (self : Env_ C) : Env_ C :=
  MkEnv n (_reqs self) (setup_cmds self) (env_vars self) (working_dir self)
    (secrets self) (compute self).

(** *** The client: environment objects and [Env.to] *)

Inductive client_event : Type :=
  | EvPutResource (c : Cluster) (env : Env)
  | EvCall (c : Cluster) (key method : string) (args : call_args)
  | EvSecretTo (s : Secret) (system : system_t).

(** The client's objects: environments, the dictionaries their [compute]
    attributes refer to, and the requests sent to targets so far. *)
Record heap : Type := MkHeap {
  envs : gmap nat EnvObj;
  dicts : gmap nat pydict;
  sent : list client_event
}.

Definition send_event (e : client_event) : M heap unit :=
  modify (fun h => MkHeap (envs h) (dicts h) (sent h ++ [e])).

Definition dangling : exn := Exn "ReferenceError" "no such object".

Definition read_env (l : loc) : M heap EnvObj :=
  fun h =>
    match envs h !! l with
    | Some e => (Return e, h)
    | None => (Raise dangling, h)
    end.

Definition read_dict (l : loc) : M heap pydict :=
  fun h =>
    match dicts h !! l with
    | Some d => (Return d, h)
    | None => (Raise dangling, h)
    end.

Definition alloc_env (e : EnvObj) : M heap loc :=
  fun h =>
    let l := fresh (dom (envs h)) in
    (Return l, MkHeap (<[l := e]> (envs h)) (dicts h) (sent h)).

Definition alloc_dict (d : pydict) : M heap loc :=
  fun h =>
    let l := fresh (dom (dicts h)) in
    (Return l, MkHeap (envs h) (<[l := d]> (dicts h)) (sent h)).

(** An attribute assignment [obj.attr = v] on the environment at [l]. *)
Definition update_env (l : loc) (f : EnvObj -> EnvObj) : M heap unit :=
  e <- read_env l ;;
  modify (fun h => MkHeap (<[l := f e]> (envs h)) (dicts h) (sent h)).

(** [d[k] = v] on the dictionary object at [l]. *)
Definition store_item (l : loc) (k : string) (v : pyval) : M heap unit :=
  d <- read_dict l ;;
  modify (fun h => MkHeap (envs h) (<[l := dict_set k v d]> (dicts h)) (sent h)).

Definition with_compute {C D} (e : Env_ C) (c : option D) : Env_ D :=
  MkEnv (name e) (_reqs e) (setup_cmds e) (env_vars e) (working_dir e)
    (secrets e) c.

(** The environment at [l] with its [compute] dictionary read out: what a
    deep copy of the object holds. *)
Definition snapshot (l : loc) : M heap Env :=
  e <- read_env l ;;
  match compute e with
  | None => ret (with_compute e None)
  | Some dl => d <- read_dict dl ;; ret (with_compute e (Some d))
  end.

(** [copy.deepcopy(self)]: a new environment object with a new [compute]
    dictionary.  The other attributes are immutable values here ([Env.to]
    rebinds them and never updates one in place). *)
Definition deepcopy (self : loc) : M heap loc :=
  e <- read_env self ;;
  c <- match compute e with
       | None => ret None
       | Some dl => d <- read_dict dl ;; l <- alloc_dict d ;; ret (Some l)
       end ;;
  alloc_env (with_compute e c).

Definition is_folder (t : install_target_t) : bool :=
  match t with TargetFolder _ => true | TargetStr _ => false end.

(** The loop body of [Env._reqs_to]. *)
Definition req_to (system : system_t) (path : option string) (mount : bool)
    (r : req) : req :=
  let r :=
    match r with
    | ReqStr s =>
        let new_req := Package_from_string s in
        if is_folder (install_target new_req) then ReqPkg new_req else r
    | _ => r
    end in
  match r with
  | ReqPkg p =>
      if is_folder (install_target p) then
        ReqPkg
          (match system with
           | SysCluster _ => Package_to p system path mount
           | SysStr _ => Package_to p system path false
           end)
      else r
  | _ => r
  end.

(** [Env._reqs_to] *)
Definition _reqs_to {C} (self : Env_ C) (system : system_t)
    (path : option string) (mount : bool) : list req * option req :=
  let new_reqs := req_to system path mount <$> reqs self in
  if truthy_opt_req (working_dir self)
  then (removelast new_reqs, last new_reqs)
  else (new_reqs, None).

(** [Env._secrets_to] *)
Fixpoint secrets_to_loop (self : Env) (system : system_t)
    (l : list secret_ref) : M heap (list secret_ref) :=
  match l with
  | [] => ret []
  | secret :: l' =>
      let secret :=
        match secret with
        | SecretName s => Secret_from_name s
        | SecretObj s => s
        end in
      send_event (EvSecretTo secret system) ;;;
      new_secret <- lift (Secret_to secret system self) ;;
      rest <- secrets_to_loop self system l' ;;
      ret (SecretObj new_secret :: rest)
  end.

Definition _secrets_to (self : loc) (system : system_t)
    : M heap (list secret_ref) :=
  e <- snapshot self ;;
  secrets_to_loop e system (secrets e).

(** [system.call(key, method, ...)] *)
Definition call (c : Cluster) (key method : string) (args : call_args)
    : M heap unit :=
  send_event (EvCall c key method args) ;;;
  match Cluster_call c key method args with
  | None => ret tt
  | Some e => raise e
  end.

Definition out_of_bounds (c : Cluster) (node_idx : Z) : exn :=
  Exn "ValueError"
    ("Cluster " +:+ cluster_name c +:+ " has only " +:+
     pretty (Z.of_nat (length (ips c))) +:+
     " nodes. Requested node index " +:+ pretty node_idx +:+
     " is out of bounds.").

(** [Env.to], lines 214 to 223: the check of [node_idx] against the
    number of nodes, and its record in the [compute] of the copy. *)
Definition to_node_idx (new_env : loc) (c : Cluster) (node_idx : option Z)
    : M heap unit :=
  match node_idx with
  | Some node_idx =>
      if node_idx >=? Z.of_nat (length (ips c)) then
        raise (out_of_bounds c node_idx)
      else
        n <- read_env new_env ;;
        match compute n with
        | None =>
            d <- alloc_dict [] ;;
            update_env new_env (fun n => with_compute n (Some d))
        | Some _ => ret tt
        end ;;;
        n <- read_env new_env ;;
        match compute n with
        | Some d => store_item d "node_idx" (PInt node_idx)
        | None => raise dangling
        end
  | None => ret tt
  end.

(** [Env.to], lines 225 to 242: the copy is registered on the cluster,
    the environment variables are set, the install is triggered, and the
    secrets are sent. *)
Definition to_cluster (self new_env : loc) (c : Cluster)
    (force_install : bool) : M heap unit :=
  n <- snapshot new_env ;;
  key <- (if truthy_opt_str (name n)
          then send_event (EvPutResource c n) ;;;
               lift (Cluster_put_resource c n)
          else ret (default_env_name c)) ;;
  e <- read_env self ;;
  let vars := _process_env_vars (env_vars e) in
  (if negb (is_empty vars)
   then call c key "_set_env_vars" (ArgsSetEnvVars vars)
   else ret tt) ;;;
  (if truthy_opt_str (name n)
   then call c key "install" (ArgsInstall force_install)
   else
     call c key "_install_reqs" (ArgsInstallReqs (reqs n)) ;;;
     call c key "_run_setup_cmds" (ArgsRunSetupCmds (setup_cmds n))) ;;;
  new_secrets <- _secrets_to self (SysCluster c) ;;
  update_env new_env (fun n =>
    MkEnv (name n) (_reqs n) (setup_cmds n) (env_vars n) (working_dir n)
      new_secrets (compute n)).

(** [Env.to] *)
Definition to (self : loc) (system : system_t) (node_idx : option Z)
    (path : option string) (mount force_install : bool) : M heap loc :=
  let system := _get_cluster_from system in
  new_env <- deepcopy self ;;
  e <- read_env self ;;
  let new := _reqs_to e system path mount in
  update_env new_env (fun n =>
    MkEnv (name n) (Some new.1) (setup_cmds n) (env_vars n) new.2
      (secrets n) (compute n)) ;;;
  match system with
  | SysCluster c =>
      to_node_idx new_env c node_idx ;;;
      to_cluster self new_env c force_install
  | SysStr _ => ret tt
  end ;;;
  ret new_env.

(** *** Specification vocabulary for the client *)

(** The targets answer: no request to a collaborator raises. *)
Definition reliable : Prop :=
  (forall c env, exists key, Cluster_put_resource c env = Return key) /\
  (forall c key method args, Cluster_call c key method args = None) /\
  (forall s system env, exists s', Secret_to s system env = Return s').

(** Every object of [h0] is in [h], with the same attributes or items. *)
Definition stable (h0 h : heap) : Prop :=
  (forall l (e : EnvObj), envs h0 !! l = Some e -> envs h !! l = Some e) /\
  (forall l (d : pydict), dicts h0 !! l = Some d -> dicts h !! l = Some d).

(** The environment at [l] holds [node_idx] under [compute["node_idx"]]. *)
Definition recorded (node_idx : Z) (l : loc) (h : heap) : Prop :=
  exists (n : EnvObj) dl (d : pydict),
    envs h !! l = Some n /\ compute n = Some dl /\
    dicts h !! dl = Some d /\ dict_get "node_idx" d = Some (PInt node_idx).

(** The requested node index, if any, passes the check of [Env.to]. *)
Definition in_bounds (system : system_t) (node_idx : option Z) : Prop :=
  forall c k, system = SysCluster c -> node_idx = Some k ->
              k < Z.of_nat (length (ips c)).

(** [new] is an object made after [h0]: the objects of [h0] are as they
    were, and neither [new] nor its [compute] dictionary is one of them. *)
Definition fresh_copy (h0 : heap) (new : loc) (h : heap) : Prop :=
  stable h0 h /\ envs h0 !! new = None /\
  exists n : EnvObj,
    envs h !! new = Some n /\
    forall dl, compute n = Some dl ->
               dicts h0 !! dl = None /\ is_Some (dicts h !! dl).

(** The object at [self] can be read, and so can its [compute]. *)
Definition readable (self : loc) (h : heap) : Prop :=
  exists e : EnvObj,
    envs h !! self = Some e /\
    forall dl, compute e = Some dl -> is_Some (dicts h !! dl).

(** [I] does not depend on the requests sent. *)
Definition sent_indep (I : heap -> Prop) : Prop :=
  forall h t, I h -> I (MkHeap (envs h) (dicts h) t).

(** [Q] holds of the value and state a computation returns, [E] of the
    exception and state it raises. *)
Definition wp {S A} (r : outcome A * S) (Q : A -> S -> Prop)
    (E : exn -> S -> Prop) : Prop :=
  match r with
  | (Return a, s) => Q a s
  | (Raise e, s) => E e s
  end.

End WithExternals.

End EnvModel.

(** ** Callable references ([runhouse/rns/send.py]) *)

Module SendModel.

(** Modelled from the spec: the enumeration [ResourceAccess] is not among
    the source files.  The access level of a callable reference is one of
    write, read and proxy; [Send.access] holds it as a string. *)
Definition ResourceAccess_write : string := "write".
Definition ResourceAccess_read : string := "read".
Definition ResourceAccess_proxy : string := "proxy".

(** The attributes of a [Send] its call methods read. *)
Record Send : Type := {
  fn_pointers : option (option string * string * string);
  hardware : string;
  name : option string;
  access : string
}.

(** The pickled list [[relative_path, module_name, fn_name, fn_type, args,
    kwargs]]. *)
Record envelope : Type := {
  relative_path : option string;
  module_name : string;
  fn_name : string;
  fn_type : string;
  call_args : pyval;
  call_kwargs : pyval
}.

(** The unpickled list [[res, fn_exception, fn_traceback]]. *)
Record response : Type := {
  res : pyval;
  fn_exception : option exn;
  fn_traceback : option string
}.

Record http_response : Type := {
  status_code : Z;
  content : string;
  data : pyval
}.

Inductive event : Type :=
  | EvLogInfo (msg : string)
  | EvLogError (msg : string)
  (** [self.hardware.call_grpc(serialized_func=...)] *)
  | EvCallGrpc (hardware : string) (msg : envelope)
  | EvRayInit
  | EvHttpPost (url : string) (args kwargs : pyval).

Class Externals : Type := {
  (** the gRPC round trip and the unpickling of the answer; it raises on
      a transport failure *)
  call_grpc : string -> envelope -> outcome response;
  (** [rh_config.rns_client.token] *)
  rns_token : option string;
  http_url : Send -> string;
  requests_post : string -> pyval -> pyval -> http_response
}.

Section WithExternals.
Context `{Externals}.

Definition log (e : event) : M (list event) unit :=
  modify (fun t => t ++ [e]).

Definition opt_str (o : option string) : string :=
  match o with None => "None" | Some s => s end.

(** [self.access in [ResourceAccess.write, ResourceAccess.read]] *)
Definition has_ssh_access (self : Send) : bool :=
  bool_decide (access self ∈ [ResourceAccess_write; ResourceAccess_read]).

(** [self.name or 'anonymous send'] *)
Definition display_name (self : Send) : string :=
  if truthy_opt_str (name self) then opt_str (name self)
  else "anonymous send".

(** [Send._call_fn_with_ssh_access] *)
Definition _call_fn_with_ssh_access (self : Send) (fn_type : string)
    (args kwargs : pyval) : M (list event) pyval :=
  let name := display_name self in
  log (EvLogInfo ("Running " +:+ name +:+ " via SSH")) ;;;
  match fn_pointers self with
  | None => raise (Exn "RuntimeError" ("No fn pointers saved for " +:+ name))
  | Some (relative_path, module_name, fn_name) =>
      let serialized_func :=
        {| relative_path := relative_path; module_name := module_name;
           fn_name := fn_name; fn_type := fn_type;
           call_args := args; call_kwargs := kwargs |} in
      log (EvCallGrpc (hardware self) serialized_func) ;;;
      raw_msg <- lift (call_grpc (hardware self) serialized_func) ;;
      match fn_exception raw_msg with
      | Some fn_exception =>
          log (EvLogError ("Error inside send " +:+ fn_type +:+ ": " +:+
                           exn_msg fn_exception +:+ ".")) ;;;
          log (EvLogError ("Traceback: " +:+ opt_str (fn_traceback raw_msg))) ;;;
          raise fn_exception
      | None => ret (res raw_msg)
      end
  end.

Definition not_implemented (method : string) : exn :=
  Exn "NotImplementedError"
    ("Send." +:+ method +:+
     " only works with Write or Read access, not Proxy access").

(** [Send.__call__] *)
Definition __call__ (self : Send) (args kwargs : pyval)
    : M (list event) pyval :=
  if has_ssh_access self then
    _call_fn_with_ssh_access self "call" args kwargs
  else if negb (String.eqb (access self) ResourceAccess_proxy) then
    raise (Exn "RuntimeError" "Running http url requires proxy access")
  else if negb (truthy_opt_str rns_token) then
    raise (Exn "ValueError"
      "Token must be saved in the local .rh config in order to use an http url")
  else
    let url := http_url self in
    log (EvLogInfo ("Running " +:+ opt_str (name self) +:+
                    " via http url: " +:+ url)) ;;;
    log (EvHttpPost url args kwargs) ;;;
    let resp := requests_post url args kwargs in
    if negb (status_code resp =? 200) then
      raise (Exn "Exception" ("Failed to run Send endpoint: " +:+ content resp))
    else ret (data resp).

(** [Send.repeat] *)
Definition repeat (self : Send) (num_repeats : Z) (args kwargs : pyval)
    : M (list event) pyval :=
  if has_ssh_access self then
    _call_fn_with_ssh_access self "repeat"
      (PList [PInt num_repeats; args]) kwargs
  else raise (not_implemented "repeat").

(** [Send.map] *)
Definition map (self : Send) (arg_list kwargs : pyval)
    : M (list event) pyval :=
  if has_ssh_access self then
    _call_fn_with_ssh_access self "map" arg_list kwargs
  else raise (not_implemented "map").

(** [Send.starmap] *)
Definition starmap (self : Send) (args_lists kwargs : pyval)
    : M (list event) pyval :=
  if has_ssh_access self then
    _call_fn_with_ssh_access self "starmap" args_lists kwargs
  else raise (not_implemented "starmap").

(** [Send.enqueue] *)
Definition enqueue (self : Send) (args kwargs : pyval)
    : M (list event) pyval :=
  if has_ssh_access self then
    _call_fn_with_ssh_access self "queue" args kwargs
  else raise (not_implemented "enqueue").

(** [Send.remote]: [ray.init] runs before the access level is looked at,
    and the message names [Send.map]. *)
Definition remote (self : Send) (args kwargs : pyval)
    : M (list event) pyval :=
  log EvRayInit ;;;
  if has_ssh_access self then
    _call_fn_with_ssh_access self "remote" args kwargs
  else raise (not_implemented "map").

(** [Send.get] *)
Definition get (self : Send) (obj_ref : pyval) : M (list event) pyval :=
  if has_ssh_access self then
    let arg_list :=
      match obj_ref with PList _ => obj_ref | _ => PList [obj_ref] end in
    _call_fn_with_ssh_access self "get" arg_list (PDict [])
  else raise (not_implemented "get").

(** The envelopes transmitted in a trace. *)
Definition transmitted (t : list event) : list envelope :=
  omap (fun e => match e with EvCallGrpc _ m => Some m | _ => None end) t.

(** Does [sub] occur in [s]? *)
Fixpoint contains (sub s : string) : bool :=
  String.prefix sub s ||
  match s with
  | EmptyString => false
  | String _ s' => contains sub s'
  end.

(** A capability error: [NotImplementedError] whose message names the
    access levels that are required. *)
Definition capability_error (e : exn) : bool :=
  String.eqb (exn_type e) "NotImplementedError" &&
  contains "Write or Read access" (exn_msg e).

(** The call is refused on the spot: it raises a capability error, no
    envelope has been transmitted, and nothing happened before the raise
    except, at most, the local [ray.init]. *)
Definition gated (t : list event) (r : outcome pyval * list event) : Prop :=
  exists e,
    r.1 = Raise e /\ capability_error e = true /\
    transmitted r.2 = transmitted t /\
    (r.2 = t \/ r.2 = t ++ [EvRayInit]).

(** The envelope [_call_fn_with_ssh_access] pickles. *)
Definition envelope_of (self : Send) (fn_type : string) (args kwargs : pyval)
    : option envelope :=
  match fn_pointers self with
  | None => None
  | Some (relative_path, module_name, fn_name) =>
      Some {| relative_path := relative_path; module_name := module_name;
              fn_name := fn_name; fn_type := fn_type;
              call_args := args; call_kwargs := kwargs |}
  end.

End WithExternals.

End SendModel.

(** ** A concrete world

    One implementation of the collaborators, and a few environments and
    callable references, on which the models run. *)

Module Demo.
Import EnvModel.

(** [repr] of a configuration value (strings without quotes or escapes). *)
Fixpoint repr (v : pyval) : string :=
  match v with
  | PNone => "None"
  | PBool b => if b then "True" else "False"
  | PInt z => pretty z
  | PStr s => "'" +:+ s +:+ "'"
  | PList l =>
      "[" +:+
      (fix items (l : list pyval) : string :=
         match l with
         | [] => ""
         | [x] => repr x
         | x :: l' => repr x +:+ ", " +:+ items l'
         end) l +:+ "]"
  | PDict d =>
      "{" +:+
      (fix items (d : list (string * pyval)) : string :=
         match d with
         | [] => ""
         | [(k, x)] => "'" +:+ k +:+ "': " +:+ repr x
         | (k, x) :: d' => "'" +:+ k +:+ "': " +:+ repr x +:+ ", " +:+ items d'
         end) d +:+ "}"
  | PObj r => r
  end.

(** A polynomial string hash modulo the Mersenne prime 2^61 - 1. *)
Fixpoint poly_hash (acc : Z) (s : string) : Z :=
  match s with
  | EmptyString => acc
  | String a s' =>
      poly_hash ((acc * 1000003 + Z.of_nat (Ascii.nat_of_ascii a))
                 mod (2 ^ 61 - 1)) s'
  end.

Definition package_of_string (s : string) : Package :=
  {| install_target := TargetStr s; install_method := "pip" |}.

Definition target_name (p : Package) : string :=
  match install_target p with
  | TargetStr s => s
  | TargetFolder f => folder_path f
  end.

(** The installer of the package named ["broken"] raises, every other
    installer returns; the target answers every request. *)
Definition world : Externals := {|
  py_str := fun d => repr (PDict d);
  py_hash := poly_hash 0;
  Resource_config := fun n =>
    [("name", opt_str_val n); ("resource_type", PStr "env");
     ("resource_subtype", PStr "Env")];
  Package_config := fun p => PStr (target_name p);
  Package_str := fun p => "Package: " +:+ target_name p;
  Package_from_string := package_of_string;
  Package_to := fun p _ _ _ => p;
  Package__install := fun p _ _ =>
    if String.eqb (target_name p) "broken"
    then Some (Exn "RuntimeError" "pip install broken failed")
    else None;
  _env_vars_from_file := fun _ => [];
  Secret_from_name := fun s => {| secret_name := s; secret_system := None |};
  Secret_to := fun s _ _ => Return s;
  _get_cluster_from := fun s => s;
  Cluster_put_resource := fun _ e =>
    Return (match name e with Some n => n | None => "" end);
  Cluster_call := fun _ _ _ _ => None
|}.

Definition numpy_env (n : option string) : Env :=
  MkEnv n (Some [ReqStr "numpy"]) (Some ["echo ready"]) (EnvVarsDict [])
    None [] None.

Definition broken_env : Env :=
  MkEnv (Some "broken_env") (Some [ReqStr "numpy"; ReqStr "broken"; ReqStr "torch"])
    (Some ["echo ready"]) (EnvVarsDict []) None [] None.

Definition empty_store : obj_store := MkStore ∅ [].

(** The node after [numpy_env (Some "a")] has been installed on it. *)
Definition installed_once : obj_store :=
  (install (H := world) (numpy_env (Some "a")) false None empty_store).2.

(** The node after the failed installation of [broken_env]. *)
Definition after_failure : obj_store :=
  (install (H := world) broken_env false None empty_store).2.

Definition two_nodes : Cluster :=
  {| cluster_name := "rh-cluster"; ips := ["10.0.0.1"; "10.0.0.2"];
     default_env_name := "base_env"; default_env_run_cmd := "";
     on_this_cluster := false |}.

(** A client holding one environment object whose [compute] is a
    dictionary object. *)
Definition client_env : EnvObj :=
  MkEnv (Some "numpy_env") (Some [ReqStr "numpy"]) None (EnvVarsDict [])
    (Some (ReqStr "./")) [] (Some 0%nat).

Definition client : heap :=
  MkHeap {[ 0%nat := client_env ]} {[ 0%nat := [("cpus", PInt 1)] ]} [].

Definition proxy_send : SendModel.Send :=
  {| SendModel.fn_pointers := Some (None, "mod", "fn");
     SendModel.hardware := "rh-cluster";
     SendModel.name := Some "summer";
     SendModel.access := "proxy" |}.

Definition write_send : SendModel.Send :=
  {| SendModel.fn_pointers := Some (None, "mod", "fn");
     SendModel.hardware := "rh-cluster";
     SendModel.name := Some "summer";
     SendModel.access := "write" |}.

(** A target on which every ["call"] raises [ZeroDivisionError] and every
    other kind of call returns 3. *)
Definition remote_error : exn := Exn "ZeroDivisionError" "division by zero".

Definition send_world : SendModel.Externals := {|
  SendModel.call_grpc := fun _ m =>
    if String.eqb (SendModel.fn_type m) "call"
    then Return {| SendModel.res := PNone;
                   SendModel.fn_exception := Some remote_error;
                   SendModel.fn_traceback := Some "Traceback (most recent call last)" |}
    else Return {| SendModel.res := PInt 3;
                   SendModel.fn_exception := None;
                   SendModel.fn_traceback := None |};
  SendModel.rns_token := Some "token";
  SendModel.http_url := fun _ => "https://api.run.house/proxy/summer/endpoint";
  SendModel.requests_post := fun _ _ _ =>
    {| SendModel.status_code := 200; SendModel.content := "3";
       SendModel.data := PInt 3 |}
|}.

End Demo.

(** ** More of the environment manager *)

Module EnvMore.
Import EnvModel.

(** [os.environ] *)
Abbreviation environ := (gmap string string).

(** [Env._set_env_vars]: [for k, v in env_vars.items(): os.environ[k] = v] *)
Definition _set_env_vars (env_vars : list (string * string))
    (os_environ : environ) : environ :=
  fold_left (fun env kv => <[kv.1 := kv.2]> env) env_vars os_environ.

Section WithExternals.
Context `{Externals}.

(** The commands [_run_setup_cmds] runs: the argument, or the attribute
    when the argument is [None] or empty. *)
Definition setup_cmds_run (self : Env) (setup_cmds_arg : option (list string))
    : list string :=
  if is_empty (list_or_empty setup_cmds_arg)
  then list_or_empty (setup_cmds self)
  else list_or_empty setup_cmds_arg.

(** The requirement is, or names, a package whose target is a [Folder]. *)
Definition is_folder_req (r : req) : bool :=
  match r with
  | ReqStr s => is_folder (install_target (Package_from_string s))
  | ReqPkg p => is_folder (install_target p)
  | ReqOther _ => false
  end.

(** The secret an element of [Env.secrets] stands for. *)
Definition secret_of (r : secret_ref) : Secret :=
  match r with
  | SecretName s => Secret_from_name s
  | SecretObj s => s
  end.

(** What [secret.to(system=system, env=self)] puts in the new list. *)
Definition moved_secret (self : Env) (system : system_t) (r : secret_ref)
    : secret_ref :=
  match Secret_to (secret_of r) system self with
  | Return s' => SecretObj s'
  | Raise _ => r
  end.

(** The environment with other secrets. *)
Definition with_secrets {C} (e : Env_ C) (s : list secret_ref) : Env_ C :=
  MkEnv (name e) (_reqs e) (setup_cmds e) (env_vars e) (working_dir e) s
    (compute e).

(** The key [Env.to] addresses the copy by on the cluster. *)
Definition cluster_key (c : Cluster) (n : Env) : string :=
  if truthy_opt_str (name n) then
    match Cluster_put_resource c n with
    | Return key => key
    | Raise _ => default_env_name c
    end
  else default_env_name c.

(** The requests [Env.to] sends to a cluster for the copy [n] of [self],
    in the order it sends them. *)
Definition cluster_requests (c : Cluster) (self n : Env)
    (force_install : bool) : list client_event :=
  let key := cluster_key c n in
  let vars := _process_env_vars (env_vars self) in
  (if truthy_opt_str (name n) then [EvPutResource c n] else []) ++
  (if negb (is_empty vars)
   then [EvCall c key "_set_env_vars" (ArgsSetEnvVars vars)] else []) ++
  (if truthy_opt_str (name n)
   then [EvCall c key "install" (ArgsInstall force_install)]
   else [EvCall c key "_install_reqs" (ArgsInstallReqs (reqs n));
         EvCall c key "_run_setup_cmds" (ArgsRunSetupCmds (setup_cmds n))]) ++
  ((fun r => EvSecretTo (secret_of r) (SysCluster c)) <$> secrets self).

(** The [compute] of the copy: the dictionary of the original, with the
    node index stored in it when one is given for a cluster. *)
Definition compute_to (system : system_t) (node_idx : option Z)
    (compute : option pydict) : option pydict :=
  match system, node_idx with
  | SysCluster _, Some k =>
      Some (dict_set "node_idx" (PInt k)
              (match compute with Some d => d | None => [] end))
  | _, _ => compute
  end.

(** The copy before its secrets are sent: requirements and working
    directory rebased, node index recorded. *)
Definition rebased (self : Env) (system : system_t) (node_idx : option Z)
    (path : option string) (mount : bool) : Env :=
  let system := _get_cluster_from system in
  MkEnv (name self) (Some (_reqs_to self system path mount).1)
    (setup_cmds self) (env_vars self) (_reqs_to self system path mount).2
    (secrets self) (compute_to system node_idx (compute self)).

(** The environment [Env.to] returns. *)
Definition sent_to (self : Env) (system : system_t) (node_idx : option Z)
    (path : option string) (mount : bool) : Env :=
  let n := rebased self system node_idx path mount in
  match _get_cluster_from system with
  | SysCluster c =>
      with_secrets n (moved_secret self (SysCluster c) <$> secrets self)
  | SysStr _ => n
  end.

(** The requests [Env.to] sends. *)
Definition to_requests (self : Env) (system : system_t)
    (node_idx : option Z) (path : option string) (mount force_install : bool)
    : list client_event :=
  match _get_cluster_from system with
  | SysCluster c =>
      cluster_requests c self (rebased self system node_idx path mount)
        force_install
  | SysStr _ => []
  end.

End WithExternals.

End EnvMore.

(** ** More of the callable references *)

Module SendMore.
Import SendModel.

(** What [Send.http_url] reads from [rh_config.rns_client], and the JSON
    helpers it calls. *)
Class UrlExternals : Type := {
  api_server_url : string;
  (** [rns_client.resource_uri(name=self.name)] *)
  resource_uri : option string -> string;
  (** [rns_client.token] *)
  token : option string;
  is_jsonable : pyval -> bool;
  (** [json.dumps({"args": args, "kwargs": kwargs})] *)
  json_dumps : pyval -> pyval -> string
}.

(** [Send.http_url] *)
Definition http_url `{UrlExternals} (self : Send) (curl_command : bool)
    (args kwargs : pyval) : outcome string :=
  let resource_uri := resource_uri (name self) in
  let uri := "proxy/" +:+ resource_uri in
  if curl_command then
    if negb (is_jsonable args) || negb (is_jsonable kwargs) then
      Raise (Exn "Exception"
        "Invalid Send func params provided, must be able to convert args and kwargs to json")
    else
      Return
        ("curl -X 'POST' '" +:+ api_server_url +:+ "/proxy" +:+ uri +:+
         "/endpoint' " +:+
         "-H 'accept: application/json' " +:+
         "-H 'Authorization: Bearer " +:+ opt_str token +:+ "' " +:+
         "-H 'Content-Type: application/json' " +:+
         "-d '" +:+ json_dumps args kwargs +:+ "'")
  else Return (api_server_url +:+ "/" +:+ uri +:+ "/endpoint").

(** The attributes [Send.__init__] sets. *)
Record SendObj : Type := MkSendObj {
  obj_fn_pointers : option (option string * string * string);
  obj_hardware : option string;
  obj_reqs : list EnvModel.req;
  obj_image : option string;
  obj_access : string;
  obj_dryrun : bool;
  obj_name : option string
}.

Inductive init_event : Type :=
  | EvInfo (msg : string)
  (** [self.hardware.is_up()] *)
  | EvIsUp (hardware : string)
  (** [self.hardware.up()] *)
  | EvUp (hardware : string)
  (** [self.hardware.install_packages(self.reqs)] *)
  | EvInstallPackages (hardware : string) (reqs : list EnvModel.req).

Class InitExternals : Type := {
  (** [rh_config.rns_client.locate_working_dir()] *)
  locate_working_dir : string;
  (** the answer of [hardware.is_up()] *)
  hardware_is_up : string -> bool
}.

Definition init_log (e : init_event) : M (list init_event) unit :=
  modify (fun t => t ++ [e]).

(** [Send.reup_cluster] *)
Definition reup_cluster (hardware : string) : M (list init_event) unit :=
  init_log (EvInfo ("Upping the cluster " +:+ hardware)) ;;;
  init_log (EvUp hardware).

(** [Send.__init__] *)
Definition __init__ `{InitExternals}
    (fn_pointers : option (option string * string * string))
    (hardware : option string) (name : option string)
    (reqs : option (list EnvModel.req)) (image : option string)
    (dryrun : bool) (access : option string)
    : M (list init_event) SendObj :=
  let reqs :=
    match reqs with
    | None => [EnvModel.ReqStr ("reqs:" +:+ locate_working_dir)]
    | Some reqs => reqs
    end in
  let access :=
    if truthy_opt_str access then opt_str access else "write" in
  (if negb dryrun && bool_decide (access ∈ ["write"; "read"]) then
     match hardware with
     | None =>
         raise (Exn "AttributeError"
                  "'NoneType' object has no attribute 'is_up'")
     | Some hw =>
         init_log (EvIsUp hw) ;;;
         (if negb (hardware_is_up hw) then reup_cluster hw else ret tt) ;;;
         init_log (EvInfo "Setting up Send on cluster.") ;;;
         init_log (EvInstallPackages hw reqs) ;;;
         init_log (EvInfo "Send setup complete.")
     end
   else ret tt) ;;;
  ret (MkSendObj fn_pointers hardware reqs image access dryrun name).

(** The requests to the hardware in a trace of [__init__]. *)
Definition hardware_requests (t : list init_event) : list init_event :=
  List.filter (fun e => match e with EvInfo _ => false | _ => true end) t.

End SendMore.

(** ** Environment helpers ([runhouse/resources/envs/utils.py]) *)

Module UtilsModel.
Import EnvModel.

(** *** [_process_reqs] *)

(** An element of a requirement list before or after processing: a
    string, a configuration dictionary, a [Package], or another object. *)
Inductive item : Type :=
  | IStr (s : string)
  | IDict (d : pydict)
  | IPkg (p : Package)
  | IOther (repr : string).

Fixpoint has_colon (s : string) : bool :=
  match s with
  | EmptyString => false
  | String a s' => String.eqb (String a "") ":" || has_colon s'
  end.

(** [s.split(":")[-1]] *)
Fixpoint last_segment (s : string) : string :=
  match s with
  | EmptyString => EmptyString
  | String a s' =>
      if has_colon s' then last_segment s'
      else if String.eqb (String a "") ":" then s' else String a s'
  end.

Class ReqExternals : Type := {
  (** [rns_client.exists(package)] *)
  rns_exists : string -> bool;
  (** [rns_client.load_config(package)] *)
  rns_load_config : string -> pydict;
  (** [Path(p).expanduser()] *)
  expanduser : string -> string;
  (** [path.is_absolute()] *)
  is_absolute : string -> bool;
  (** [(rns_client.locate_working_dir() / path).exists()] *)
  exists_in_working_dir : string -> bool;
  from_string : string -> Package;
  (** [Package.from_config] *)
  from_config : pydict -> Package
}.

(** The loop body of [_process_reqs]. *)
Definition process_req `{ReqExternals} (package : item) : outcome item :=
  match package with
  | IStr s =>
      match s with
      | EmptyString => Raise (Exn "IndexError" "string index out of range")
      | String c _ =>
          if String.eqb (String c "") "/" && rns_exists s then
            Return (IDict (rns_load_config s))
          else
            let path := expanduser (last_segment s) in
            if is_absolute path || exists_in_working_dir path
            then Return (IPkg (from_string s))
            else Return package
      end
  | IDict d => Return (IPkg (from_config d))
  | _ => Return package
  end.

(** [_process_reqs] *)
Fixpoint _process_reqs `{ReqExternals} (reqs : list item)
    : outcome (list item) :=
  match reqs with
  | [] => Return []
  | package :: reqs' =>
      match process_req package with
      | Raise e => Raise e
      | Return package =>
          match _process_reqs reqs' with
          | Raise e => Raise e
          | Return preprocessed_reqs => Return (package :: preprocessed_reqs)
          end
      end
  end.

(** *** [_get_env_from] *)

(** What [_get_env_from] is given and what it returns: an environment, a
    list of requirements, a configuration, a name, or another object. *)
Inductive env_like : Type :=
  | ELEnv (e : Env)
  | ELList (l : list req)
  | ELDict (config : pydict)
  | ELStr (s : string)
  | ELOther (repr : string).

Class EnvExternals : Type := {
  (** the constant of [runhouse.constants] *)
  EMPTY_DEFAULT_ENV_NAME : string;
  (** [rns_client.exists(env, resource_type="env")] *)
  rns_exists_env : string -> outcome bool;
  (** [Env.from_name] *)
  Env_from_name : string -> outcome Env;
  (** [Env.from_config] *)
  Env_from_config : pydict -> outcome env_like
}.

(** [Env(reqs=reqs, working_dir=working_dir)]: the other attributes take
    the defaults of [Env.__init__]. *)
Definition Env_of_reqs (reqs : list req) (working_dir : option req) : Env :=
  MkEnv None (Some reqs) None (EnvVarsDict []) working_dir [] (Some []).

(** [_get_env_from] *)
Definition _get_env_from `{EnvExternals} (env : env_like) : outcome env_like :=
  match env with
  | ELEnv _ => Return env
  | ELList l =>
      if is_empty l then Return (ELEnv (Env_of_reqs l None))
      else Return (ELEnv (Env_of_reqs l (Some (ReqStr "./"))))
  | ELDict config => Env_from_config config
  | ELStr s =>
      if negb (SendModel.contains EMPTY_DEFAULT_ENV_NAME s) then
        let attempt :=
          match rns_exists_env s with
          | Raise e => Raise e
          | Return true =>
              match Env_from_name s with
              | Raise e => Raise e
              | Return e => Return (ELEnv e)
              end
          | Return false => Return env
          end in
        match attempt with
        | Raise e =>
            if String.eqb (exn_type e) "ValueError" then Return env
            else Raise e
        | Return r => Return r
        end
      else Return env
  | ELOther _ => Return env
  end.

(** *** [_get_conda_yaml] *)

(** An entry of [dependencies] in a conda environment file: a package
    specification, or a mapping such as [{"pip": [...]}]. *)
Inductive dep : Type :=
  | DepStr (s : string)
  | DepDict (d : list (string * list string)).

(** A conda environment: its [dependencies] entry, if any, and the rest. *)
Record conda_yaml : Type := MkYaml {
  yaml_rest : pydict;
  dependencies : option (list dep)
}.

Inductive conda_env_arg : Type :=
  | CondaStr (s : string)
  | CondaDict (y : conda_yaml).

Class CondaExternals : Type := {
  (** [Path(conda_env).expanduser().exists()] *)
  yaml_path_exists : string -> bool;
  (** [yaml.safe_load(open(conda_env))] *)
  yaml_load_file : string -> conda_yaml;
  (** the output of [conda info --envs] *)
  conda_info_envs : string;
  (** [yaml.safe_load] of the output of [conda env export -n env --no-build] *)
  conda_env_export : string -> conda_yaml
}.

Definition ray_requirement : string := "ray >= 2.2.0, <= 2.6.3, != 2.6.0".

Definition has_key {A} (k : string) (d : list (string * A)) : bool :=
  existsb (fun kv => String.eqb k kv.1) d.

(** ["pip" in dep] *)
Definition pip_in (d : dep) : bool :=
  match d with
  | DepStr s => SendModel.contains "pip" s
  | DepDict d => has_key "pip" d
  end.

(** [isinstance(dep, Dict) and "pip" in dep] *)
Definition is_pip_dict (d : dep) : bool :=
  match d with
  | DepStr _ => false
  | DepDict d => has_key "pip" d
  end.

(** [dep["pip"]] *)
Fixpoint pip_list (d : list (string * list string)) : list string :=
  match d with
  | [] => []
  | (k, v) :: d' => if String.eqb "pip" k then v else pip_list d'
  end.

(** [[pip for pip in dep["pip"] if "ray" in pip]] is not empty *)
Definition has_ray (d : list (string * list string)) : bool :=
  existsb (SendModel.contains "ray") (pip_list d).

(** [dep["pip"].append(x)] *)
Fixpoint pip_append (x : string) (d : list (string * list string))
    : list (string * list string) :=
  match d with
  | [] => []
  | (k, v) :: d' =>
      if String.eqb "pip" k then (k, v ++ [x]) :: d'
      else (k, v) :: pip_append x d'
  end.

(** The body of the last loop of [_get_conda_yaml]: a mapping with a
    ["pip"] entry that lists no requirement on [ray] gets one. *)
Definition add_ray (entry : dep) : dep :=
  match entry with
  | DepDict d =>
      if has_key "pip" d && negb (has_ray d)
      then DepDict (pip_append ray_requirement d)
      else entry
  | DepStr _ => entry
  end.

(** The second half of [_get_conda_yaml]: [pip] and a pip requirement on
    [ray] are made part of the dependencies. *)
Definition with_ray (y : conda_yaml) : conda_yaml :=
  let deps := match dependencies y with Some l => l | None => [] end in
  let deps :=
    if negb (existsb pip_in deps) then deps ++ [DepStr "pip"] else deps in
  let deps :=
    if negb (existsb is_pip_dict deps) then
      deps ++ [DepDict [("pip", [ray_requirement])]]
    else add_ray <$> deps in
  MkYaml (yaml_rest y) (Some deps).

(** The dependencies of a conda environment ([[]] when it has none). *)
Definition deps_of (y : conda_yaml) : list dep :=
  match dependencies y with Some l => l | None => [] end.

(** A mapping with a ["pip"] entry lists a requirement on [ray]. *)
Definition pip_dict_has_ray (d : dep) : bool :=
  match d with
  | DepStr _ => true
  | DepDict d => implb (has_key "pip" d) (has_ray d)
  end.

(** [bool(conda_env)] *)
Definition conda_env_truthy (conda_env : option conda_env_arg) : bool :=
  match conda_env with
  | None => false
  | Some (CondaStr s) => negb (String.eqb s "")
  | Some (CondaDict y) =>
      negb (is_empty (yaml_rest y) &&
            match dependencies y with None => true | Some _ => false end)
  end.

(** [_get_conda_yaml] *)
Definition _get_conda_yaml `{CondaExternals}
    (conda_env : option conda_env_arg) : outcome (option conda_yaml) :=
  if negb (conda_env_truthy conda_env) then Return None
  else
    match conda_env with
    | None => Return None
    | Some (CondaStr s) =>
        if yaml_path_exists s then
          Return (Some (with_ray (yaml_load_file s)))
        else if SendModel.contains (String (Ascii.ascii_of_nat 10) (s +:+ " "))
                  conda_info_envs then
          Return (Some (with_ray (conda_env_export s)))
        else
          Raise (Exn "Exception"
            (s +:+ " must be a Dict or point to an existing path or conda environment."))
    | Some (CondaDict y) => Return (Some (with_ray y))
    end.

(** *** [install_conda] *)

Section Shell.
(** The machine the commands run on, and what a command does to it. *)
Context {World : Type}.
Context (CONDA_INSTALL_CMDS : list string).
Context (run_with_logs : string -> World -> Z * World).

Inductive shell_event : Type :=
  | ShRun (cmd : string)
  | ShLogInfo (msg : string).

(** The machine, and what was run and logged so far. *)
Definition shell : Type := World * list shell_event.

(** [run_setup_command(cmd)[0]] without a cluster *)
Definition run_local (cmd : string) : M shell Z :=
  fun s =>
    let r := run_with_logs cmd s.1 in
    (Return r.1, (r.2, s.2 ++ [ShRun cmd])).

(** [install_conda] *)
Definition install_conda : M shell unit :=
  rc <- run_local "conda --version" ;;
  if negb (rc =? 0) then
    modify (fun s : shell =>
      (s.1, s.2 ++ [ShLogInfo "Conda is not installed. Installing..."])) ;;;
    for_each CONDA_INSTALL_CMDS (fun cmd => rc <- run_local cmd ;; ret tt) ;;;
    rc <- run_local "conda --version" ;;
    if negb (rc =? 0) then
      raise (Exn "RuntimeError" "Could not install Conda.")
    else ret tt
  else ret tt.

(** The machine after the commands have run on it, in order. *)
Definition after (cmds : list string) (w : World) : World :=
  fold_left (fun w cmd => (run_with_logs cmd w).2) cmds w.

(** The commands run in a trace. *)
Definition commands (t : list shell_event) : list string :=
  omap (fun e => match e with ShRun cmd => Some cmd | ShLogInfo _ => None end) t.

End Shell.

End UtilsModel.

(** ** More of the concrete world *)

Module DemoMore.
Import EnvModel.

Definition some_environ : EnvMore.environ :=
  {[ "PATH" := "/usr/bin"; "RH_LOG" := "info" ]}.

Definition some_vars : list (string * string) :=
  [("RH_LOG", "debug"); ("OMP_NUM_THREADS", "1")].

(** A client whose only environment has no name, two variables and a
    secret. *)
Definition anon_env : EnvObj :=
  MkEnv None (Some [ReqStr "numpy"]) (Some ["echo ready"])
    (EnvVarsDict some_vars) None [SecretName "aws"] None.

Definition anon_client : heap := MkHeap {[ 0%nat := anon_env ]} ∅ [].

(** Callable references with an access level that does not exist, without
    function pointers, and a world without a token. *)
Definition odd_send : SendModel.Send :=
  {| SendModel.fn_pointers := Some (None, "mod", "fn");
     SendModel.hardware := "rh-cluster";
     SendModel.name := Some "summer";
     SendModel.access := "admin" |}.

Definition empty_send : SendModel.Send :=
  {| SendModel.fn_pointers := None;
     SendModel.hardware := "rh-cluster";
     SendModel.name := None;
     SendModel.access := "write" |}.

Definition no_token_world : SendModel.Externals := {|
  SendModel.call_grpc := fun _ _ =>
    Raise (Exn "ConnectionError" "failed to connect to all addresses");
  SendModel.rns_token := None;
  SendModel.http_url := fun _ => "https://api.run.house/proxy/summer/endpoint";
  SendModel.requests_post := fun _ _ _ =>
    {| SendModel.status_code := 403; SendModel.content := "forbidden";
       SendModel.data := PNone |}
|}.

Definition url_world : SendMore.UrlExternals := {|
  SendMore.api_server_url := "https://api.run.house";
  SendMore.resource_uri := fun n =>
    match n with Some n => n | None => "" end;
  SendMore.token := Some "tok";
  SendMore.is_jsonable := fun _ => true;
  SendMore.json_dumps := fun _ _ => "{}"
|}.

(** The cluster ["down"] is not up, every other one is. *)
Definition init_world : SendMore.InitExternals := {|
  SendMore.locate_working_dir := "/home/user/project";
  SendMore.hardware_is_up := fun hw => negb (String.eqb hw "down")
|}.

(** ["/rh/shared"] is a known address, ["./"] exists in the working
    directory. *)
Definition req_world : UtilsModel.ReqExternals := {|
  UtilsModel.rns_exists := fun s => String.eqb s "/rh/shared";
  UtilsModel.rns_load_config := fun s => [("name", PStr s)];
  UtilsModel.expanduser := fun s => s;
  UtilsModel.is_absolute := fun s =>
    match s with String c _ => String.eqb (String c "") "/" | _ => false end;
  UtilsModel.exists_in_working_dir := fun s => String.eqb s "./";
  UtilsModel.from_string := Demo.package_of_string;
  UtilsModel.from_config := fun _ => Demo.package_of_string "from_config"
|}.

(** The naming service knows ["known"]; asking about ["bad/name"] raises
    [ValueError]. *)
Definition env_world : UtilsModel.EnvExternals := {|
  UtilsModel.EMPTY_DEFAULT_ENV_NAME := "_cluster_default_env";
  UtilsModel.rns_exists_env := fun s =>
    if String.eqb s "bad/name" then Raise (Exn "ValueError" "invalid name")
    else Return (String.eqb s "known");
  UtilsModel.Env_from_name := fun s => Return (Demo.numpy_env (Some s));
  UtilsModel.Env_from_config := fun _ => Return (UtilsModel.ELEnv (Demo.numpy_env None))
|}.

Definition conda_world : UtilsModel.CondaExternals := {|
  UtilsModel.yaml_path_exists := fun _ => false;
  UtilsModel.yaml_load_file := fun _ => UtilsModel.MkYaml [] None;
  UtilsModel.conda_info_envs :=
    "# conda environments:" +:+ String (Ascii.ascii_of_nat 10) "base  /opt/conda ";
  UtilsModel.conda_env_export := fun _ => UtilsModel.MkYaml [] None
|}.

(** A conda environment with a pip mapping that does not mention ray. *)
Definition some_yaml : UtilsModel.conda_yaml :=
  UtilsModel.MkYaml [("name", PStr "sd")]
    (Some [UtilsModel.DepStr "python=3.9";
           UtilsModel.DepDict [("pip", ["torch"; "diffusers"])]]).

(** A machine is the number of install commands that have run on it;
    conda is there once both of them have. *)
Definition install_cmds : list string :=
  ["wget miniconda.sh"; "bash miniconda.sh -b"].

Definition machine (cmd : string) (w : nat) : Z * nat :=
  if String.eqb cmd "conda --version"
  then (if Nat.leb 2 w then 0 else 127, w)
  else (0, S w).

End DemoMore.

(** ** Properties of the environment manager *)

Module EnvProps.
Import EnvModel.

(** *** Dictionaries *)

Lemma dict_get_set_eq k v d : dict_get k (dict_set k v d) = Some v.
Proof.
  induction d as [|[k' v'] d IH]; simpl.
  - by rewrite String.eqb_refl.
  - destruct (String.eqb k k') eqn:E; simpl; rewrite E; [done | apply IH].
Qed.

Lemma dict_get_set_ne k k' v d :
  k <> k' -> dict_get k (dict_set k' v d) = dict_get k d.
Proof.
  intros Hne. induction d as [|[k0 v0] d IH]; simpl.
  - by apply String.eqb_neq in Hne as ->.
  - destruct (String.eqb k' k0) eqn:E; simpl.
    + apply String.eqb_eq in E as <-.
      by apply String.eqb_neq in Hne as ->.
    + by rewrite IH.
Qed.

Lemma dict_get_remove_ne k k' d :
  k <> k' -> dict_get k (dict_remove k' d) = dict_get k d.
Proof.
  intros Hne. induction d as [|[k0 v0] d IH]; simpl; [done|].
  destruct (String.eqb k' k0) eqn:E; simpl.
  - apply String.eqb_eq in E as <-.
    by apply String.eqb_neq in Hne as ->.
  - by rewrite IH.
Qed.

Section WithExternals.
Context `{Externals}.

(** *** The configuration that is hashed holds the name *)

Lemma save_attrs_keeps (self : Env) k attrs config :
  dict_get k config = Some (attr_value self k) ->
  dict_get k (save_attrs_to_config self config attrs)
  = Some (attr_value self k).
Proof.
  unfold save_attrs_to_config.
  revert config. induction attrs as [|a attrs IH]; intros config Hk; simpl.
  - done.
  - apply IH. destruct (truthy (attr_value self a)); [|done].
    destruct (decide (k = a)) as [->|Hne].
    + apply dict_get_set_eq.
    + by rewrite dict_get_set_ne.
Qed.

Lemma save_attrs_stores (self : Env) k attrs config :
  k ∈ attrs -> truthy (attr_value self k) = true ->
  dict_get k (save_attrs_to_config self config attrs)
  = Some (attr_value self k).
Proof.
  unfold save_attrs_to_config.
  revert config. induction attrs as [|a attrs IH]; intros config Hin Ht.
  - by apply elem_of_nil in Hin.
  - apply elem_of_cons in Hin as [<-|Hin]; simpl.
    + rewrite Ht. apply save_attrs_keeps, dict_get_set_eq.
    + by apply IH.
Qed.

Lemma env_name_truthy {C} (self : Env_ C) :
  truthy (opt_str_val (env_name self)) = true.
Proof.
  unfold env_name. destruct (name self) as [s|]; simpl; [|done].
  destruct (String.eqb s "") eqn:E; simpl; [done | by rewrite E].
Qed.

Lemma config_env_name (self : Env) cfg :
  config self = Return cfg ->
  dict_get "env_name" cfg = Some (opt_str_val (env_name self)).
Proof.
  unfold config.
  pose proof (save_attrs_stores self "env_name"
    ["setup_cmds"; "env_vars"; "env_name"; "compute"]
    (Resource_config (name self))) as Hsave.
  set (base := save_attrs_to_config _ _ _) in *.
  intros Hc. destruct (_reqs self) as [l|]; [|done].
  injection Hc as <-.
  rewrite !dict_get_set_ne by done.
  apply Hsave; [set_solver | apply (env_name_truthy self)].
Qed.

Lemma hashed_config_env_name (self : Env) c :
  hashed_config self = Return c ->
  dict_get "env_name" c = Some (opt_str_val (env_name self)).
Proof.
  unfold hashed_config, dict_pop. intros Hc.
  destruct (config self) as [cfg|] eqn:Hcfg; [|done].
  destruct (dict_get "name" cfg); [|done].
  injection Hc as <-. cbn [snd].
  rewrite dict_get_remove_ne by done.
  by apply config_env_name.
Qed.

(** *** [install], step by step *)

Lemma install_unfold (self : Env) force cluster st c :
  hashed_config self = Return c ->
  install self force cluster st =
  if bool_decide (py_hash (py_str c) ∈ dom (installed_envs st)) && negb force
  then (Return tt,
        MkStore (installed_envs st)
          (effects st ++ [EvLogDebug "Env already installed, skipping"]))
  else (_install_reqs self cluster None ;;; _run_setup_cmds self cluster None)
         (MkStore (<[py_hash (py_str c) := name self]> (installed_envs st))
            (effects st)).
Proof.
  unfold hashed_config, install. intros Hc.
  unfold bind at 1, lift at 1.
  destruct (config self) as [cfg|e]; [|done].
  unfold bind at 1, lift at 1.
  destruct (dict_pop "name" cfg) as [popped|e]; [|done].
  simplify_eq. unfold bind at 1, gets at 1.
  by destruct (bool_decide _ && negb force).
Qed.

Lemma install_package_ok (self : Env) cluster package st :
  installs_ok self cluster package ->
  install_package self cluster package st =
  (Return tt,
   MkStore (installed_envs st) (effects st ++ package_events cluster package)).
Proof.
  intros (pkg & Hres & Hok).
  unfold install_package, package_events, bind, lift, emit, modify, ret.
  rewrite Hres, Hok. simpl. by rewrite <- app_assoc.
Qed.

Lemma install_package_fails (self : Env) cluster package e st :
  install_fails self cluster package e ->
  install_package self cluster package st =
  (Raise e,
   MkStore (installed_envs st) (effects st ++ package_events cluster package)).
Proof.
  unfold install_package, package_events, bind, lift, emit, modify, raise.
  intros [Hres | (pkg & Hres & Hfail)]; rewrite Hres; simpl.
  - rewrite app_nil_r. by destruct st.
  - rewrite Hfail. by rewrite <- app_assoc.
Qed.

Lemma install_loop_ok (self : Env) cluster l st :
  Forall (installs_ok self cluster) l ->
  for_each l (install_package self cluster) st =
  (Return tt,
   MkStore (installed_envs st)
     (effects st ++ flat_map (package_events cluster) l)).
Proof.
  intros Hall. revert st.
  induction Hall as [|package l Hok _ IH]; intros st; simpl.
  - rewrite app_nil_r. by destruct st.
  - unfold bind. rewrite install_package_ok by done.
    rewrite IH. simpl. by rewrite <- app_assoc.
Qed.

Lemma install_loop_fails (self : Env) cluster pre package post e st :
  Forall (installs_ok self cluster) pre ->
  install_fails self cluster package e ->
  for_each (pre ++ package :: post) (install_package self cluster) st =
  (Raise e,
   MkStore (installed_envs st)
     (effects st ++ flat_map (package_events cluster) (pre ++ [package]))).
Proof.
  intros Hall Hfail. revert st.
  induction Hall as [|p l Hok _ IH]; intros st; simpl.
  - unfold bind. rewrite (install_package_fails _ _ _ e) by done.
    by rewrite app_nil_r.
  - unfold bind. rewrite install_package_ok by done.
    rewrite IH. simpl. by rewrite <- app_assoc.
Qed.

Lemma setup_loop (self : Env) cluster cmds st :
  for_each cmds
    (fun cmd =>
       let cmd :=
         if negb (String.eqb (_run_cmd self) "")
         then _run_cmd self +:+ " " +:+ cmd else cmd in
       run_setup_command cmd cluster (_process_env_vars (env_vars self))) st =
  (Return tt,
   MkStore (installed_envs st)
     (effects st ++
      (setup_event cluster (_process_env_vars (env_vars self)) <$> cmds))).
Proof.
  revert st. induction cmds as [|cmd cmds IH]; intros st; simpl.
  - rewrite app_nil_r. by destruct st.
  - unfold bind.
    assert (run_setup_command cmd cluster (_process_env_vars (env_vars self)) st
            = (Return tt,
               MkStore (installed_envs st)
                 (effects st ++
                  [setup_event cluster (_process_env_vars (env_vars self)) cmd])))
      as ->.
    { unfold run_setup_command, setup_event, emit, modify.
      destruct cluster as [c|]; [|done]. by destruct (on_this_cluster c). }
    rewrite IH. simpl. by rewrite <- app_assoc.
Qed.

Lemma run_setup_cmds_spec (self : Env) cluster st :
  _run_setup_cmds self cluster None st =
  (Return tt,
   MkStore (installed_envs st) (effects st ++ setup_events self cluster)).
Proof.
  unfold _run_setup_cmds, setup_events. simpl.
  destruct (setup_cmds self) as [[|cmd cmds]|]; simpl.
  - unfold ret. rewrite app_nil_r. by destruct st.
  - apply (setup_loop self cluster (cmd :: cmds)).
  - unfold ret. rewrite app_nil_r. by destruct st.
Qed.

Lemma not_skipped (h : Z) (installed : gmap Z (option string)) force :
  h ∉ dom installed \/ force = true ->
  bool_decide (h ∈ dom installed) && negb force = false.
Proof.
  intros [Hnot | Hforce].
  - by rewrite bool_decide_eq_false_2.
  - rewrite Hforce. apply andb_false_r.
Qed.

Lemma install_runs (self : Env) force cluster st c :
  hashed_config self = Return c ->
  py_hash (py_str c) ∉ dom (installed_envs st) \/ force = true ->
  Forall (installs_ok self cluster) (reqs self) ->
  install self force cluster st =
  (Return tt,
   MkStore (<[py_hash (py_str c) := name self]> (installed_envs st))
     (effects st ++ flat_map (package_events cluster) (reqs self)
                 ++ setup_events self cluster)).
Proof.
  intros Hc Hrun Hok. rewrite (install_unfold _ _ _ _ c) by done.
  rewrite not_skipped by done.
  unfold bind, _install_reqs. simpl is_empty. cbv iota.
  rewrite install_loop_ok by done.
  rewrite run_setup_cmds_spec. simpl. by rewrite <- app_assoc.
Qed.

Lemma install_skips (self : Env) cluster st c :
  hashed_config self = Return c ->
  py_hash (py_str c) ∈ dom (installed_envs st) ->
  install self false cluster st =
  (Return tt,
   MkStore (installed_envs st)
     (effects st ++ [EvLogDebug "Env already installed, skipping"])).
Proof.
  intros Hc Hin. rewrite (install_unfold _ _ _ _ c) by done.
  by rewrite bool_decide_eq_true_2.
Qed.

Lemma install_hash_inv (self : Env) h :
  install_hash self = Return h ->
  exists c, hashed_config self = Return c /\ h = py_hash (py_str c).
Proof.
  unfold install_hash. destruct (hashed_config self) as [c|]; [|done].
  intros [= <-]. by exists c.
Qed.

Lemma performed_app t1 t2 : performed (t1 ++ t2) = performed t1 ++ performed t2.
Proof. apply List.filter_app. Qed.

(** C6. When the content hash of an environment is already a key of
    [installed_envs], [install] with [force=False] returns at once: the
    cache is left as it is, a debug line is logged, and no package is
    installed and no setup command is run. *)
Theorem install_cached_is_noop (self : Env) cluster st h :
  install_hash self = Return h ->
  h ∈ dom (installed_envs st) ->
  exists st',
    install self false cluster st = (Return tt, st') /\
    installed_envs st' = installed_envs st /\
    effects st' = effects st ++ [EvLogDebug "Env already installed, skipping"] /\
    performed (effects st') = performed (effects st).
Proof.
  intros (c & Hc & ->)%install_hash_inv Hin.
  eexists. split; [by apply (install_skips _ _ _ c)|].
  simpl. split_and!; [done..|].
  rewrite performed_app. apply app_nil_r.
Qed.


Lemma env_name_rename {C} (self : Env_ C) (n : string) :
  n <> "" -> env_name (rename (Some n) self) = Some n.
Proof.
  intros Hn. unfold env_name. simpl.
  by apply String.eqb_neq in Hn as ->.
Qed.

(** C1, on the code. Two environments that differ in their name only are
    hashed over different dictionaries, because ["env_name"] stays in the
    configuration when ["name"] is popped. Unless [hash] collides on the
    two strings, installing the first and then the second on a node that
    has neither runs the package installers and the setup commands twice. *)
Theorem renamed_env_is_installed_again (self : Env) (n1 n2 : string)
    cluster st c1 c2 :
  n1 <> "" -> n2 <> "" -> n1 <> n2 ->
  hashed_config (rename (Some n1) self) = Return c1 ->
  hashed_config (rename (Some n2) self) = Return c2 ->
  py_hash (py_str c1) <> py_hash (py_str c2) ->
  py_hash (py_str c1) ∉ dom (installed_envs st) ->
  py_hash (py_str c2) ∉ dom (installed_envs st) ->
  Forall (installs_ok (rename (Some n1) self) cluster) (reqs self) ->
  Forall (installs_ok (rename (Some n2) self) cluster) (reqs self) ->
  c1 <> c2 /\
  exists st1 st2,
    install (rename (Some n1) self) false cluster st = (Return tt, st1) /\
    install (rename (Some n2) self) false cluster st1 = (Return tt, st2) /\
    effects st2 =
      effects st
      ++ (flat_map (package_events cluster) (reqs self)
          ++ setup_events self cluster)
      ++ (flat_map (package_events cluster) (reqs self)
          ++ setup_events self cluster).
Proof.
  intros Hn1 Hn2 Hne Hc1 Hc2 Hhash Hnew1 Hnew2 Hok1 Hok2. split.
  - intros ->.
    apply hashed_config_env_name in Hc1, Hc2.
    rewrite env_name_rename in Hc1, Hc2 by done.
    simpl in Hc1, Hc2. congruence.
  - eexists _, _. split_and!.
    + apply (install_runs _ _ _ _ c1); auto.
    + apply (install_runs _ _ _ _ c2); [done| |done].
      left. simpl. rewrite dom_insert_L.
      intros [Heq%elem_of_singleton | Hin]%elem_of_union; auto.
    + simpl. unfold setup_events. simpl. by rewrite <- !app_assoc.
Qed.

(** C7. The [reqs] property returns the declared requirements in their
    order, followed by [working_dir] when it is set (truthy), and the
    declared requirements alone when it is [None]. *)
Theorem reqs_spec {C} (self : Env_ C) :
  (forall w, working_dir self = Some w -> truthy_opt_req (Some w) = true ->
     reqs self = list_or_empty (_reqs self) ++ [w] /\
     last (reqs self) = Some w) /\
  (working_dir self = None -> reqs self = list_or_empty (_reqs self)).
Proof.
  unfold reqs. split.
  - intros w -> ->. split; [done|]. apply last_snoc.
  - intros ->. apply app_nil_r.
Qed.

(** An empty string as [working_dir] counts as unset. *)
Lemma reqs_empty_working_dir {C} (self : Env_ C) :
  working_dir self = Some (ReqStr "") ->
  reqs self = list_or_empty (_reqs self).
Proof. unfold reqs. intros ->. apply app_nil_r. Qed.

(** C10. [env_name] is ["base"] for an environment without a name, the
    name itself for a named one, and never [None]. *)
Theorem env_name_spec {C} (self : Env_ C) :
  (name self = None -> env_name self = Some "base") /\
  (forall n, name self = Some n -> n <> "" -> env_name self = Some n) /\
  env_name self <> None.
Proof.
  unfold env_name. split_and!.
  - by intros ->.
  - intros n -> Hn. simpl. by apply String.eqb_neq in Hn as ->.
  - by destruct (truthy_opt_str (name self)) eqn:E, (name self).
Qed.

(** The empty string is no name either. *)
Lemma env_name_empty {C} (self : Env_ C) :
  name self = Some "" -> env_name self = Some "base".
Proof. unfold env_name. by intros ->. Qed.

End WithExternals.

(** *** Symbolic execution of client code *)

Lemma wp_bind {S A B} (m : M S A) (f : A -> M S B) s Q E :
  wp (m s) (fun a s' => wp (f a s') Q E) E -> wp (bind m f s) Q E.
Proof. unfold wp, bind. by destruct (m s) as [[a|e] s']. Qed.

Lemma wp_ret {S A} (a : A) (s : S) (Q : A -> S -> Prop) E :
  Q a s -> wp (ret a s) Q E.
Proof. done. Qed.

Lemma wp_raise {S A} e (s : S) (Q : A -> S -> Prop) (E : exn -> S -> Prop) :
  E e s -> wp (raise e s) Q E.
Proof. done. Qed.

Lemma wp_lift {S A} (o : outcome A) (s : S) (Q : A -> S -> Prop) E :
  (forall a, o = Return a -> Q a s) ->
  (forall e, o = Raise e -> E e s) ->
  wp (lift o s) Q E.
Proof. unfold wp, lift. destruct o; auto. Qed.

Lemma wp_read_env l h e (Q : EnvObj -> heap -> Prop) E :
  envs h !! l = Some e -> Q e h -> wp (read_env l h) Q E.
Proof. unfold wp, read_env. by intros ->. Qed.

Lemma wp_read_dict l h d (Q : pydict -> heap -> Prop) E :
  dicts h !! l = Some d -> Q d h -> wp (read_dict l h) Q E.
Proof. unfold wp, read_dict. by intros ->. Qed.

Lemma wp_send_event ev h (Q : unit -> heap -> Prop) E :
  Q tt (MkHeap (envs h) (dicts h) (sent h ++ [ev])) ->
  wp (send_event ev h) Q E.
Proof. done. Qed.

Lemma wp_alloc_env e h (Q : loc -> heap -> Prop) E :
  (forall l, l ∉ dom (envs h) ->
     Q l (MkHeap (<[l := e]> (envs h)) (dicts h) (sent h))) ->
  wp (alloc_env e h) Q E.
Proof. intros HQ. apply HQ, is_fresh. Qed.

Lemma wp_alloc_dict d h (Q : loc -> heap -> Prop) E :
  (forall l, l ∉ dom (dicts h) ->
     Q l (MkHeap (envs h) (<[l := d]> (dicts h)) (sent h))) ->
  wp (alloc_dict d h) Q E.
Proof. intros HQ. apply HQ, is_fresh. Qed.

Lemma wp_update_env l f h e (Q : unit -> heap -> Prop) E :
  envs h !! l = Some e ->
  Q tt (MkHeap (<[l := f e]> (envs h)) (dicts h) (sent h)) ->
  wp (update_env l f h) Q E.
Proof. unfold update_env, bind, read_env. by intros ->. Qed.

Lemma wp_store_item l k v h d (Q : unit -> heap -> Prop) E :
  dicts h !! l = Some d ->
  Q tt (MkHeap (envs h) (<[l := dict_set k v d]> (dicts h)) (sent h)) ->
  wp (store_item l k v h) Q E.
Proof. unfold store_item, bind, read_dict. by intros ->. Qed.

Section WithExternals.
Context `{Externals}.

Lemma wp_call c key method args h (Q : unit -> heap -> Prop) E :
  (Cluster_call c key method args = None ->
   Q tt (MkHeap (envs h) (dicts h) (sent h ++ [EvCall c key method args]))) ->
  (forall e, Cluster_call c key method args = Some e ->
   E e (MkHeap (envs h) (dicts h) (sent h ++ [EvCall c key method args]))) ->
  wp (call c key method args h) Q E.
Proof.
  intros HQ HE. unfold call. apply wp_bind, wp_send_event.
  destruct (Cluster_call c key method args); [by apply HE | by apply HQ].
Qed.

Lemma wp_secrets_to_loop (self : Env) system l h
    (Q : list secret_ref -> heap -> Prop) E :
  (forall l' t, Q l' (MkHeap (envs h) (dicts h) t)) ->
  (forall e t, ~ reliable -> E e (MkHeap (envs h) (dicts h) t)) ->
  wp (secrets_to_loop self system l h) Q E.
Proof.
  revert h Q. induction l as [|secret l IH]; intros h Q HQ HE;
    cbn [secrets_to_loop].
  - apply wp_ret. destruct h. apply HQ.
  - apply wp_bind, wp_send_event, wp_bind, wp_lift.
    + intros new_secret _. apply wp_bind, IH; cbn [envs dicts].
      * intros l' t. apply wp_ret, HQ.
      * apply HE.
    + intros e He. apply HE. intros (_ & _ & Hrel).
      edestruct Hrel as [s' Hs']. rewrite Hs' in He. discriminate.
Qed.

Lemma wp_mono {S A} (r : outcome A * S) (Q Q' : A -> S -> Prop)
    (E E' : exn -> S -> Prop) :
  wp r Q E ->
  (forall a s, Q a s -> Q' a s) -> (forall e s, E e s -> E' e s) ->
  wp r Q' E'.
Proof. destruct r as [[a|e] s]; simpl; auto. Qed.

(** *** Objects made by [Env.to] and objects that were there before *)

Lemma stable_refl h : stable h h.
Proof. by split. Qed.

Lemma stable_update h0 h new (n : EnvObj) t :
  stable h0 h -> envs h0 !! new = None ->
  stable h0 (MkHeap (<[new := n]> (envs h)) (dicts h) t).
Proof.
  intros [He Hd] Hnew. split; cbn; [|done].
  intros l e Hl. rewrite lookup_insert_ne; [by apply He | congruence].
Qed.

Lemma stable_store h0 h dl (d : pydict) t :
  stable h0 h -> dicts h0 !! dl = None ->
  stable h0 (MkHeap (envs h) (<[dl := d]> (dicts h)) t).
Proof.
  intros [He Hd] Hnew. split; cbn; [done|].
  intros l e Hl. rewrite lookup_insert_ne; [by apply Hd | congruence].
Qed.

Lemma stable_sent h0 h t :
  stable h0 h -> stable h0 (MkHeap (envs h) (dicts h) t).
Proof. by intros [He Hd]. Qed.

Lemma readable_stable self h0 h :
  readable self h0 -> stable h0 h -> readable self h.
Proof.
  intros (e & He & Hd) [Hse Hsd]. exists e. split; [by apply Hse|].
  intros dl Hdl. destruct (Hd dl Hdl) as [d Hd']. exists d. by apply Hsd.
Qed.

Lemma fresh_copy_sent h0 new h t :
  fresh_copy h0 new h -> fresh_copy h0 new (MkHeap (envs h) (dicts h) t).
Proof.
  intros (Hst & Hnew & n & Hn & Hc). split; [by apply stable_sent|].
  split; [done|]. by exists n.
Qed.

Lemma fresh_copy_update h0 new h (n : EnvObj) (f : EnvObj -> EnvObj) t :
  fresh_copy h0 new h -> envs h !! new = Some n ->
  compute (f n) = compute n ->
  fresh_copy h0 new (MkHeap (<[new := f n]> (envs h)) (dicts h) t).
Proof.
  intros (Hst & Hnew & n' & Hn' & Hc) Hn Hf.
  split; [by apply stable_update|]. split; [done|].
  exists (f n). cbn. rewrite lookup_insert_eq. split; [done|].
  rewrite Hf. by simplify_eq.
Qed.

Lemma recorded_update k new h (n : EnvObj) (f : EnvObj -> EnvObj) t :
  recorded k new h -> envs h !! new = Some n ->
  compute (f n) = compute n ->
  recorded k new (MkHeap (<[new := f n]> (envs h)) (dicts h) t).
Proof.
  intros (n' & dl & d & Hn' & Hc & Hd & Hk) Hn Hf.
  rewrite Hn in Hn'. injection Hn' as <-.
  exists (f n), dl, d. cbn. rewrite lookup_insert_eq. by rewrite Hf.
Qed.

Lemma recorded_sent k new h t :
  recorded k new h -> recorded k new (MkHeap (envs h) (dicts h) t).
Proof. done. Qed.

Ltac solve_stable :=
  try lazymatch goal with Hst : stable _ _ |- _ => destruct Hst as [? ?] end;
  split; cbn [envs dicts sent]; intros ? ? ?;
  rewrite ?lookup_insert_ne by congruence; auto.

Ltac wp_lookup := cbn [envs dicts sent]; simplify_map_eq; try done; eauto.

Ltac wp_step :=
  lazymatch goal with
  | |- wp (bind _ _ _) _ _ => apply wp_bind
  | |- wp (ret _ _) _ _ => apply wp_ret
  | |- wp (raise _ _) _ _ => apply wp_raise
  | |- wp (send_event _ _) _ _ => apply wp_send_event
  | |- wp (read_env _ _) _ _ => eapply wp_read_env; [wp_lookup |]
  | |- wp (read_dict _ _) _ _ => eapply wp_read_dict; [wp_lookup |]
  | |- wp (update_env _ _ _) _ _ => eapply wp_update_env; [wp_lookup |]
  | |- wp (store_item _ _ _ _) _ _ => eapply wp_store_item; [wp_lookup |]
  end.

Tactic Notation "wp_alloc_env" "as" ident(l) ident(Hl) :=
  apply wp_alloc_env; cbn [envs dicts sent]; intros l Hl%not_elem_of_dom.
Tactic Notation "wp_alloc_dict" "as" ident(l) ident(Hl) :=
  apply wp_alloc_dict; cbn [envs dicts sent]; intros l Hl%not_elem_of_dom.

(** [copy.deepcopy(self)] returns an object that was not there before. *)
Lemma deepcopy_spec self h0 :
  readable self h0 ->
  wp (deepcopy self h0)
    (fun new h => fresh_copy h0 new h /\ sent h = sent h0)
    (fun _ _ => False).
Proof.
  intros (e0 & Hself & Hwf). unfold deepcopy.
  do 3 wp_step.
  destruct (compute e0) as [dl|] eqn:Hc.
  - destruct (Hwf dl eq_refl) as [d Hd].
    do 3 wp_step. wp_alloc_dict as l Hl. wp_step.
    wp_alloc_env as new Hnew. split; [|done].
    split; [solve_stable|].
    split; [done|]. eexists. cbn. rewrite lookup_insert_eq. split; [done|].
    intros ? [= <-]. split; [done|]. by rewrite lookup_insert_eq.
  - wp_step. wp_alloc_env as new Hnew. split; [|done].
    split; [solve_stable|].
    split; [done|]. eexists. cbn. rewrite lookup_insert_eq. by split.
Qed.

(** An assignment to an attribute of the copy other than [compute]. *)
Lemma update_attrs_spec h0 new h (f : EnvObj -> EnvObj) E :
  fresh_copy h0 new h ->
  (forall n, compute (f n) = compute n) ->
  wp (update_env new f h)
    (fun _ h' =>
       fresh_copy h0 new h' /\ sent h' = sent h /\
       forall k, recorded k new h -> recorded k new h')
    E.
Proof.
  intros Hfresh Hf.
  destruct Hfresh as (Hst & Hnew & n & Hn & Hc) eqn:Heq. clear Heq.
  wp_step. split_and!; [|done|].
  - apply fresh_copy_update; [|done|done]. split; [done|]. split; [done|]. eauto.
  - intros k Hk. by apply recorded_update.
Qed.

(** The check and the record of [node_idx]. *)
Lemma to_node_idx_spec h0 new c node_idx h :
  fresh_copy h0 new h ->
  wp (to_node_idx new c node_idx h)
    (fun _ h' =>
       fresh_copy h0 new h' /\ sent h' = sent h /\
       in_bounds (SysCluster c) node_idx /\
       forall k, node_idx = Some k -> recorded k new h')
    (fun e h' =>
       h' = h /\
       exists k, node_idx = Some k /\ Z.of_nat (length (ips c)) <= k /\
                 e = out_of_bounds c k).
Proof.
  intros (Hst & Hnew & n & Hn & Hc). unfold to_node_idx.
  destruct node_idx as [k|]; cycle 1.
  { wp_step. split_and!; [|done|by intros ?? _ [=]|by intros ? [=]].
    split; [done|]. split; [done|]. eauto. }
  destruct (k >=? Z.of_nat (length (ips c))) eqn:Hk.
  { wp_step. split; [done|]. exists k. split_and!; [done| lia |done]. }
  assert (in_bounds (SysCluster c) (Some k)) as Hin.
  { intros c' k' [= <-] [= <-]. lia. }
  wp_step. wp_step. wp_step.
  destruct (compute n) as [dl|] eqn:Hcn.
  - destruct (Hc dl eq_refl) as [Hdl [d Hd]].
    do 3 wp_step. rewrite Hcn. wp_step.
    split_and!; [|done|done|].
    + split; [by apply stable_store|]. split; [done|].
      exists n. cbn. split; [done|]. intros dl' Hdl'.
      assert (dl' = dl) as -> by congruence. split; [done|].
      by rewrite lookup_insert_eq.
    + intros ? [= <-]. exists n, dl, (dict_set "node_idx" (PInt k) d).
      cbn. rewrite lookup_insert_eq. split_and!; try done.
      apply dict_get_set_eq.
  - wp_step. wp_alloc_dict as l Hl'.
    assert (dicts h0 !! l = None) as Hl.
    { destruct (dicts h0 !! l) as [d|] eqn:Hd; [|done].
      apply Hst in Hd. congruence. }
    do 3 wp_step. cbn [compute with_compute envs dicts sent]. wp_step.
    split_and!; [|done|done|].
    + split; [solve_stable|]. split; [done|].
      eexists. cbn. rewrite lookup_insert_eq. split; [done|].
      intros ? [= <-]. split; [done|]. by rewrite lookup_insert_eq.
    + intros ? [= <-]. eexists _, l, _.
      cbn. rewrite !lookup_insert_eq. split_and!; try done.
Qed.

(** *** The cluster part of [Env.to] only sends requests *)

Lemma fresh_copy_readable h0 new h : fresh_copy h0 new h -> readable new h.
Proof.
  intros (_ & _ & n & Hn & Hc). exists n. split; [done|].
  intros dl Hdl. by apply Hc.
Qed.

Lemma snapshot_spec l h (Q : Env -> heap -> Prop) E :
  readable l h -> (forall n, Q n h) -> wp (snapshot l h) Q E.
Proof.
  intros (e & He & Hd) HQ. unfold snapshot. do 2 wp_step.
  destruct (compute e) as [dl|] eqn:Hc.
  - destruct (Hd dl eq_refl) as [d Hd']. do 3 wp_step. apply HQ.
  - wp_step. apply HQ.
Qed.

Lemma call_spec (I : heap -> Prop) c key method args h :
  sent_indep I -> I h ->
  wp (call c key method args h)
    (fun _ h' => I h') (fun _ h' => I h' /\ ~ reliable).
Proof.
  intros Hind HI. apply wp_call.
  - intros _. by apply Hind.
  - intros e He. split; [by apply Hind|].
    intros (_ & Hrel & _). by rewrite Hrel in He.
Qed.

Lemma secrets_to_spec (I : heap -> Prop) self system h :
  sent_indep I -> I h -> readable self h ->
  wp (_secrets_to self system h)
    (fun _ h' => I h') (fun _ h' => I h' /\ ~ reliable).
Proof.
  intros Hind HI Hread. unfold _secrets_to. wp_step.
  apply snapshot_spec; [done|]. intros e.
  apply wp_secrets_to_loop.
  - intros l' t. by apply Hind.
  - intros e' t Hrel. split; [by apply Hind | done].
Qed.

Lemma put_resource_spec (I : heap -> Prop) c (n : Env) h :
  sent_indep I -> I h ->
  wp ((if truthy_opt_str (name n)
       then send_event (EvPutResource c n) ;;; lift (Cluster_put_resource c n)
       else ret (default_env_name c)) h)
    (fun _ h' => I h') (fun _ h' => I h' /\ ~ reliable).
Proof.
  intros Hind HI. destruct (truthy_opt_str (name n)).
  - do 2 wp_step. apply wp_lift.
    + intros key _. by apply Hind.
    + intros e He. split; [by apply Hind|].
      intros (Hrel & _). destruct (Hrel c n) as [key Hkey]. congruence.
  - by wp_step.
Qed.

Lemma to_cluster_spec h0 self new c force_install h :
  readable self h0 -> fresh_copy h0 new h ->
  wp (to_cluster self new c force_install h)
    (fun _ h' =>
       fresh_copy h0 new h' /\ forall k, recorded k new h -> recorded k new h')
    (fun _ h' => stable h0 h' /\ ~ reliable).
Proof.
  intros Hself Hfresh.
  set (I := fun h' : heap =>
    fresh_copy h0 new h' /\ forall k, recorded k new h -> recorded k new h').
  assert (sent_indep I) as Hind.
  { intros h' t (Hf & Hk). split.
    - by apply fresh_copy_sent.
    - intros k Hrec. by apply recorded_sent, Hk. }
  assert (I h) as HI by done.
  assert (forall (e : exn) h', I h' /\ ~ reliable -> stable h0 h' /\ ~ reliable)
    as HE.
  { intros _ h' [((Hst & _) & _) Hrel]. done. }
  assert (forall h', I h' -> readable self h') as Hrself.
  { intros h' ((Hst & _) & _). by eapply readable_stable. }
  unfold to_cluster.
  wp_step. apply snapshot_spec; [by eapply fresh_copy_readable|]. intros n.
  wp_step. eapply wp_mono; [by apply (put_resource_spec I) | | done].
  intros key h1 HI1. cbv beta.
  destruct (Hrself h1 HI1) as (e & He & Hde).
  do 3 wp_step.
  eapply wp_mono; [| |apply HE].
  { instantiate (1 := fun _ h' => I h').
    destruct (negb _); [by apply call_spec | by wp_step]. }
  intros ? h2 HI2. cbv beta.
  wp_step. eapply wp_mono; [| |apply HE].
  { instantiate (1 := fun _ h' => I h').
    destruct (truthy_opt_str (name n)); [by apply call_spec|].
    wp_step. eapply wp_mono; [by apply (call_spec I) | | done].
    intros ? h3 HI3. by apply call_spec. }
  intros ? h3 HI3. cbv beta.
  wp_step. eapply wp_mono; [apply (secrets_to_spec I); auto | | done].
  intros new_secrets h4 [Hf4 Hk4]. cbv beta.
  eapply wp_mono;
    [by apply (update_attrs_spec h0 new h4) | | intros ?? HE'; exact HE'].
  intros ? h5 (Hf5 & _ & Hk5). split; [done|].
  intros k Hk. by apply Hk5, Hk4.
Qed.

(** [Env.to] as a whole. *)
Lemma to_spec self system node_idx path mount force_install h0 :
  readable self h0 ->
  wp (to self system node_idx path mount force_install h0)
    (fun new h =>
       stable h0 h /\ envs h0 !! new = None /\
       in_bounds (_get_cluster_from system) node_idx /\
       forall c k, _get_cluster_from system = SysCluster c ->
                   node_idx = Some k -> recorded k new h)
    (fun e h =>
       stable h0 h /\
       ((exists c k,
            _get_cluster_from system = SysCluster c /\ node_idx = Some k /\
            Z.of_nat (length (ips c)) <= k /\ e = out_of_bounds c k /\
            sent h = sent h0)
        \/ (in_bounds (_get_cluster_from system) node_idx /\ ~ reliable))).
Proof.
  intros Hself. unfold to.
  destruct (_get_cluster_from system) as [s|c] eqn:Hsys.
  - wp_step. eapply wp_mono; [by apply deepcopy_spec | | done].
    intros new h1 [Hf1 Hs1]. cbv beta.
    destruct (readable_stable self h0 h1 Hself) as (e & He & Hde);
      [apply Hf1|].
    do 3 wp_step.
    eapply wp_mono;
      [by apply (update_attrs_spec h0 new h1) | | intros ?? HE'; exact HE'].
    intros ? h2 (Hf2 & Hs2 & _). cbv beta.
    do 3 wp_step. destruct Hf2 as (Hst & Hnew & _).
    split_and!; [done | done | by intros ?? [=] | by intros ?? [=]].
  - wp_step. eapply wp_mono; [by apply deepcopy_spec | | done].
    intros new h1 [Hf1 Hs1]. cbv beta.
    destruct (readable_stable self h0 h1 Hself) as (e & He & Hde);
      [apply Hf1|].
    do 3 wp_step.
    eapply wp_mono;
      [by apply (update_attrs_spec h0 new h1) | | intros ?? HE'; exact HE'].
    intros ? h2 (Hf2 & Hs2 & _). cbv beta.
    do 2 wp_step.
    eapply wp_mono; [by apply (to_node_idx_spec h0 new c node_idx h2) | |].
    + intros ? h3 (Hf3 & Hs3 & Hin & Hrec). cbv beta.
      eapply wp_mono; [by apply (to_cluster_spec h0 self new c) | |].
      * intros ? h4 (Hf4 & Hk4). cbv beta. wp_step.
        destruct Hf4 as (Hst & Hnew & _).
        split_and!; [done | done | done |].
        intros c' k [= <-] Hk. by apply Hk4, Hrec.
      * intros e' h4 [Hst Hrel]. split; [done|]. by right.
    + intros e' h3 (-> & k & -> & Hk & ->). split; [apply Hf2|].
      left. exists c, k. split_and!; try done. congruence.
Qed.

Lemma snapshot_readable l h (n : Env) h' :
  snapshot l h = (Return n, h') -> readable l h.
Proof.
  unfold snapshot, bind, read_env, read_dict, readable.
  destruct (envs h !! l) as [e|]; [|done].
  intros Hs. exists e. split; [done|]. intros dl Hdl. rewrite Hdl in Hs.
  by destruct (dicts h !! dl).
Qed.

Lemma snapshot_stable l h0 h (n : Env) :
  snapshot l h0 = (Return n, h0) -> stable h0 h ->
  snapshot l h = (Return n, h).
Proof.
  unfold snapshot, bind, read_env, read_dict, ret. intros Hs [He Hd].
  destruct (envs h0 !! l) as [e|] eqn:Hl; [|done].
  rewrite (He _ _ Hl). destruct (compute e) as [dl|]; [|congruence].
  destruct (dicts h0 !! dl) as [d|] eqn:Hdl; [|done].
  rewrite (Hd _ _ Hdl). congruence.
Qed.


(** With a node index below the number of nodes, [to] returns an
    environment that has the index on record, unless a request to a
    collaborator raises. *)
Lemma to_below_bound self system c k path mount force_install h r h' :
  readable self h ->
  _get_cluster_from system = SysCluster c ->
  k < Z.of_nat (length (ips c)) ->
  to self system (Some k) path mount force_install h = (r, h') ->
  (exists new_env, r = Return new_env /\ recorded k new_env h') \/
  ((exists e, r = Raise e) /\ ~ reliable).
Proof.
  intros Hread Hsys Hk Hto.
  pose proof (to_spec self system (Some k) path mount force_install h Hread)
    as Hwp.
  rewrite Hto in Hwp. destruct r as [new|e]; simpl in Hwp.
  - left. exists new. split; [done|].
    destruct Hwp as (_ & _ & _ & Hrec). by apply (Hrec c).
  - right. split; [by exists e|].
    destruct Hwp as (_ & [(c' & k' & Hc' & [= <-] & Hk' & _) | [_ Hrel]]);
      [|done].
    rewrite Hsys in Hc'. injection Hc' as <-. lia.
Qed.

Lemma to_below_bound_returns self system c k path mount force_install h :
  readable self h ->
  _get_cluster_from system = SysCluster c ->
  k < Z.of_nat (length (ips c)) ->
  reliable ->
  exists new_env h',
    to self system (Some k) path mount force_install h = (Return new_env, h') /\
    recorded k new_env h'.
Proof.
  intros Hread Hsys Hk Hrel.
  destruct (to self system (Some k) path mount force_install h)
    as [r h'] eqn:Hto.
  destruct (to_below_bound _ _ _ _ _ _ _ _ _ _ Hread Hsys Hk Hto)
    as [(new & -> & Hrec) | [_ Hn]]; [|done].
  by exists new, h'.
Qed.



End WithExternals.

(** *** The theorems at work on the concrete world *)

Lemma install_cached_is_noop_witness :
  exists st',
    install (H := Demo.world) (Demo.numpy_env (Some "a")) false None
      Demo.installed_once = (Return tt, st') /\
    installed_envs st' = installed_envs Demo.installed_once /\
    effects st' = effects Demo.installed_once
                  ++ [EvLogDebug "Env already installed, skipping"] /\
    performed (effects st') = performed (effects Demo.installed_once).
Proof.
  apply (install_cached_is_noop (H := Demo.world) _ _ _ 1910498479240049039).
  - vm_compute. reflexivity.
  - apply elem_of_dom. eexists. vm_compute. reflexivity.
Defined.



Lemma renamed_env_is_installed_again_witness :
  exists st1 st2,
    install (H := Demo.world) (Demo.numpy_env (Some "a")) false None
      Demo.empty_store = (Return tt, st1) /\
    install (H := Demo.world) (Demo.numpy_env (Some "b")) false None st1
    = (Return tt, st2) /\
    performed (effects st2) =
      [EvPackageInstall (Demo.package_of_string "numpy") None;
       EvRunWithLogs "echo ready";
       EvPackageInstall (Demo.package_of_string "numpy") None;
       EvRunWithLogs "echo ready"].
Proof.
  destruct (renamed_env_is_installed_again (H := Demo.world)
              (Demo.numpy_env None) "a" "b" None Demo.empty_store
              [("resource_type", PStr "env"); ("resource_subtype", PStr "Env");
               ("setup_cmds", PList [PStr "echo ready"]);
               ("env_name", PStr "a"); ("reqs", PList [PStr "numpy"]);
               ("working_dir", PNone)]
              [("resource_type", PStr "env"); ("resource_subtype", PStr "Env");
               ("setup_cmds", PList [PStr "echo ready"]);
               ("env_name", PStr "b"); ("reqs", PList [PStr "numpy"]);
               ("working_dir", PNone)])
    as (_ & st1 & st2 & H1 & H2 & Heff).
  - discriminate.
  - discriminate.
  - discriminate.
  - reflexivity.
  - reflexivity.
  - vm_compute. discriminate.
  - apply not_elem_of_dom. reflexivity.
  - apply not_elem_of_dom. reflexivity.
  - constructor; [|constructor]. eexists. split; vm_compute; reflexivity.
  - constructor; [|constructor]. eexists. split; vm_compute; reflexivity.
  - exists st1, st2. split_and!; [exact H1 | exact H2 |].
    rewrite Heff. reflexivity.
Defined.

Lemma reqs_spec_witness :
  reqs Demo.client_env = [ReqStr "numpy"; ReqStr "./"] /\
  reqs (Demo.numpy_env None) = [ReqStr "numpy"].
Proof.
  split.
  - apply (proj1 (reqs_spec Demo.client_env) (ReqStr "./")); reflexivity.
  - apply (proj2 (reqs_spec (Demo.numpy_env None))). reflexivity.
Defined.

Lemma env_name_spec_witness :
  env_name (Demo.numpy_env None) = Some "base" /\
  env_name (Demo.numpy_env (Some "numpy_env")) = Some "numpy_env".
Proof.
  split.
  - apply (proj1 (env_name_spec (Demo.numpy_env None))). reflexivity.
  - apply (proj1 (proj2 (env_name_spec (Demo.numpy_env (Some "numpy_env"))))
             "numpy_env"); [reflexivity | discriminate].
Defined.

Lemma world_reliable : reliable (H := Demo.world).
Proof. split_and!; intros; eauto. Qed.

Lemma client_readable : readable 0%nat Demo.client.
Proof.
  exists Demo.client_env. split; [reflexivity|].
  intros dl [= <-]. eexists. reflexivity.
Qed.




End EnvProps.

(** ** Properties of callable references *)

Module SendProps.
Import SendModel.

Lemma contains_cons sub a s :
  contains sub (String a s) = String.prefix sub (String a s) || contains sub s.
Proof. reflexivity. Qed.

Lemma contains_app_r sub s1 s2 :
  contains sub s2 = true -> contains sub (s1 +:+ s2) = true.
Proof.
  intros Hs. induction s1 as [|a s1 IH]; [done|].
  change (contains sub (String a (s1 +:+ s2)) = true).
  rewrite contains_cons, IH. apply orb_true_r.
Qed.

Lemma not_implemented_is_capability_error method :
  capability_error (not_implemented method) = true.
Proof.
  unfold capability_error, not_implemented. cbn [exn_type exn_msg].
  apply andb_true_intro. split; [done|].
  apply (contains_app_r _ "Send."), contains_app_r. reflexivity.
Qed.

Lemma transmitted_app t1 t2 :
  transmitted (t1 ++ t2) = transmitted t1 ++ transmitted t2.
Proof. apply omap_app. Qed.

Section WithExternals.
Context `{Externals}.

Lemma proxy_has_no_ssh_access (self : Send) :
  access self = ResourceAccess_proxy -> has_ssh_access self = false.
Proof. unfold has_ssh_access. by intros ->. Qed.

Lemma gated_now method t : gated t (Raise (not_implemented method), t).
Proof.
  exists (not_implemented method). split_and!; [done| |done|by left].
  apply not_implemented_is_capability_error.
Qed.


Lemma ssh_call_unfold (self : Send) fn_type args kwargs t msg :
  envelope_of self fn_type args kwargs = Some msg ->
  _call_fn_with_ssh_access self fn_type args kwargs t =
  match call_grpc (hardware self) msg with
  | Raise e =>
      (Raise e,
       t ++ [EvLogInfo ("Running " +:+ display_name self +:+ " via SSH");
             EvCallGrpc (hardware self) msg])
  | Return raw_msg =>
      match fn_exception raw_msg with
      | Some fn_exception =>
          (Raise fn_exception,
           t ++ [EvLogInfo ("Running " +:+ display_name self +:+ " via SSH");
                 EvCallGrpc (hardware self) msg;
                 EvLogError ("Error inside send " +:+ fn_type +:+ ": " +:+
                             exn_msg fn_exception +:+ ".");
                 EvLogError ("Traceback: " +:+ opt_str (fn_traceback raw_msg))])
      | None =>
          (Return (res raw_msg),
           t ++ [EvLogInfo ("Running " +:+ display_name self +:+ " via SSH");
                 EvCallGrpc (hardware self) msg])
      end
  end.
Proof.
  unfold envelope_of, _call_fn_with_ssh_access.
  destruct (fn_pointers self) as [[[rp m] f]|]; [|done]. intros [= <-].
  unfold bind, log, modify, lift, raise, ret. cbn [fst snd].
  destruct (call_grpc _ _) as [raw_msg|e]; cbn.
  - destruct (fn_exception raw_msg); cbn; by rewrite <- !app_assoc.
  - by rewrite <- !app_assoc.
Qed.

(** C5. When the answer to an invocation with write or read access
    carries an exception, the exception and the traceback are logged as
    errors and that very exception is raised; when it carries none, the
    result of the answer is returned as it is. Every call method of a
    reference with write or read access goes through this path. *)
Theorem remote_exception_is_reraised (self : Send) fn_type args kwargs t
    msg raw_msg :
  envelope_of self fn_type args kwargs = Some msg ->
  call_grpc (hardware self) msg = Return raw_msg ->
  (forall fn_exception, SendModel.fn_exception raw_msg = Some fn_exception ->
     _call_fn_with_ssh_access self fn_type args kwargs t =
     (Raise fn_exception,
      t ++ [EvLogInfo ("Running " +:+ display_name self +:+ " via SSH");
            EvCallGrpc (hardware self) msg;
            EvLogError ("Error inside send " +:+ fn_type +:+ ": " +:+
                        exn_msg fn_exception +:+ ".");
            EvLogError ("Traceback: " +:+ opt_str (fn_traceback raw_msg))])) /\
  (SendModel.fn_exception raw_msg = None ->
     _call_fn_with_ssh_access self fn_type args kwargs t =
     (Return (res raw_msg),
      t ++ [EvLogInfo ("Running " +:+ display_name self +:+ " via SSH");
            EvCallGrpc (hardware self) msg])) /\
  (has_ssh_access self = true ->
     __call__ self args kwargs = _call_fn_with_ssh_access self "call" args kwargs /\
     (forall n, repeat self n args kwargs =
        _call_fn_with_ssh_access self "repeat" (PList [PInt n; args]) kwargs) /\
     map self args kwargs = _call_fn_with_ssh_access self "map" args kwargs /\
     starmap self args kwargs =
       _call_fn_with_ssh_access self "starmap" args kwargs /\
     enqueue self args kwargs =
       _call_fn_with_ssh_access self "queue" args kwargs /\
     remote self args kwargs t =
       _call_fn_with_ssh_access self "remote" args kwargs (t ++ [EvRayInit]) /\
     get self args =
       _call_fn_with_ssh_access self "get"
         (match args with PList _ => args | _ => PList [args] end) (PDict [])).
Proof.
  intros Hmsg Hgrpc. split_and!.
  - intros e He. rewrite (ssh_call_unfold _ _ _ _ _ msg) by done.
    by rewrite Hgrpc, He.
  - intros He. rewrite (ssh_call_unfold _ _ _ _ _ msg) by done.
    by rewrite Hgrpc, He.
  - intros Hssh. unfold __call__, repeat, map, starmap, enqueue, remote, get.
    unfold bind at 1, log at 1, modify at 1. by rewrite Hssh.
Qed.

End WithExternals.


Lemma remote_exception_is_reraised_witness :
  _call_fn_with_ssh_access (H := Demo.send_world) Demo.write_send "call"
    (PList [PInt 1; PInt 0]) (PDict []) []
  = (Raise Demo.remote_error,
     [EvLogInfo "Running summer via SSH";
      EvCallGrpc "rh-cluster"
        {| relative_path := None; module_name := "mod"; fn_name := "fn";
           fn_type := "call"; call_args := PList [PInt 1; PInt 0];
           call_kwargs := PDict [] |};
      EvLogError "Error inside send call: division by zero.";
      EvLogError "Traceback: Traceback (most recent call last)"]).
Proof.
  apply (proj1 (remote_exception_is_reraised (H := Demo.send_world)
           Demo.write_send "call" (PList [PInt 1; PInt 0]) (PDict []) []
           _ _ eq_refl eq_refl)).
  reflexivity.
Defined.

End SendProps.

(** ** More properties of the environment manager *)

Module EnvExtra.
Import EnvModel EnvProps EnvMore.

Lemma set_env_vars_other vars (os_environ : environ) k :
  k ∉ vars.*1 -> _set_env_vars vars os_environ !! k = os_environ !! k.
Proof.
  unfold _set_env_vars. revert os_environ.
  induction vars as [|[k' v'] vars IH]; intros os_environ Hk; [done|].
  cbn in *. apply not_elem_of_cons in Hk as [Hne Hk].
  rewrite IH by done. by rewrite lookup_insert_ne.
Qed.


Ltac wp_lookup := cbn [envs dicts sent]; simplify_map_eq; try done; eauto.

Ltac wp_step :=
  lazymatch goal with
  | |- wp (bind _ _ _) _ _ => apply wp_bind
  | |- wp (ret _ _) _ _ => apply wp_ret
  | |- wp (raise _ _) _ _ => apply wp_raise
  | |- wp (send_event _ _) _ _ => apply wp_send_event
  | |- wp (read_env _ _) _ _ => eapply wp_read_env; [wp_lookup |]
  | |- wp (read_dict _ _) _ _ => eapply wp_read_dict; [wp_lookup |]
  | |- wp (update_env _ _ _) _ _ => eapply wp_update_env; [wp_lookup |]
  | |- wp (store_item _ _ _ _) _ _ => eapply wp_store_item; [wp_lookup |]
  end.

Section WithExternals.
Context `{Externals}.

(** *** The node process *)

Lemma install_package_frame (self : Env) cluster package st r st' :
  install_package self cluster package st = (r, st') ->
  installed_envs st' = installed_envs st.
Proof.
  unfold install_package, bind, lift, emit, modify, ret, raise.
  destruct (resolve_package cluster package) as [pkg|e]; cbn.
  - destruct (Package__install pkg self cluster); by intros [= <- <-].
  - by intros [= <- <-].
Qed.

Lemma install_loop_frame (self : Env) cluster l st r st' :
  for_each l (install_package self cluster) st = (r, st') ->
  installed_envs st' = installed_envs st.
Proof.
  revert st. induction l as [|package l IH]; intros st; cbn.
  - by intros [= <- <-].
  - unfold bind.
    destruct (install_package self cluster package st) as [[[]|e] st1] eqn:Hp.
    + intros Hl. apply IH in Hl. rewrite Hl. by eapply install_package_frame.
    + intros [= <- <-]. by eapply install_package_frame.
Qed.

(** X1. Whatever [install] does (skip, install, fail), no key leaves
    [installed_envs], and the entry of every key other than the
    environment's own hash is unchanged. *)
Theorem install_keeps_cache_entries (self : Env) force cluster st r st' :
  install self force cluster st = (r, st') ->
  (forall k, k ∈ dom (installed_envs st) -> k ∈ dom (installed_envs st')) /\
  (forall k, install_hash self <> Return k ->
             installed_envs st' !! k = installed_envs st !! k).
Proof.
  unfold install_hash.
  destruct (hashed_config self) as [c|e] eqn:Hc.
  - rewrite (install_unfold _ _ _ _ c) by done.
    destruct (bool_decide _ && negb force).
    + by intros [= <- <-].
    + unfold bind.
      destruct (_install_reqs self cluster None _) as [[[]|e] st1] eqn:Hreqs.
      * rewrite run_setup_cmds_spec. intros [= <- <-]. cbn.
        apply install_loop_frame in Hreqs. rewrite Hreqs. cbn. split.
        -- intros k Hk. rewrite dom_insert_L. set_solver.
        -- intros k Hk. rewrite lookup_insert_ne; [done | congruence].
      * intros [= <- <-]. apply install_loop_frame in Hreqs.
        rewrite Hreqs. cbn. split.
        -- intros k Hk. rewrite dom_insert_L. set_solver.
        -- intros k Hk. rewrite lookup_insert_ne; [done | congruence].
  - unfold hashed_config in Hc. unfold install, bind, lift.
    destruct (config self) as [cfg|e']; [|by intros [= <- <-]].
    destruct (dict_pop "name" cfg) as [popped|e'']; [done|].
    by intros [= <- <-].
Qed.

Lemma performed_setup_events (self : Env) cluster :
  performed (setup_events self cluster) = setup_events self cluster.
Proof.
  unfold setup_events, performed.
  induction (list_or_empty (setup_cmds self)) as [|cmd l IH]; [done|].
  cbn [fmap list_fmap List.filter].
  assert (match setup_event cluster (_process_env_vars (env_vars self)) cmd with
          | EvLogDebug _ => false | _ => true end = true) as ->.
  { unfold setup_event. destruct cluster as [c|]; [|done].
    by destruct (on_this_cluster c). }
  f_equal. apply IH.
Qed.

Lemma performed_package_events (self : Env) cluster l :
  Forall (installs_ok self cluster) l ->
  exists pkgs,
    Forall2 (fun package pkg => resolve_package cluster package = Return pkg)
      l pkgs /\
    performed (flat_map (package_events cluster) l)
    = (fun pkg => EvPackageInstall pkg cluster) <$> pkgs.
Proof.
  induction 1 as [|package l (pkg & Hres & _) _ (pkgs & Hall & Hperf)].
  - by exists [].
  - exists (pkg :: pkgs). split; [by constructor|].
    cbn. rewrite performed_app, Hperf. unfold package_events. by rewrite Hres.
Qed.



Lemma removelast_snoc {A} (l : list A) x : removelast (l ++ [x]) = l.
Proof. apply removelast_last. Qed.

(** X5. [_reqs_to] rebases every declared requirement in place (same
    number, same order) and the working directory separately; a working
    directory that is [None] or the empty string comes back as [None]. *)
Theorem reqs_to_rebases_each {C} (self : Env_ C) system path mount :
  _reqs_to self system path mount =
  (req_to system path mount <$> list_or_empty (_reqs self),
   if truthy_opt_req (working_dir self)
   then req_to system path mount <$> working_dir self
   else None).
Proof.
  unfold _reqs_to, reqs.
  destruct (truthy_opt_req (working_dir self)) eqn:Hw.
  - destruct (working_dir self) as [w|]; [|done].
    rewrite fmap_app. cbn [fmap list_fmap option_fmap option_map].
    by rewrite removelast_snoc, last_snoc.
  - by rewrite app_nil_r.
Qed.

Lemma req_to_not_folder system path mount r :
  is_folder_req r = false -> req_to system path mount r = r.
Proof.
  unfold req_to, is_folder_req. destruct r as [s|p|o]; [| |done].
  - by intros ->.
  - by intros ->.
Qed.

(** X6. When no requirement is, or names, a package with a [Folder]
    target, [_reqs_to] returns the requirements and the working directory
    as they are, whatever the target. *)
Theorem reqs_to_without_folders {C} (self : Env_ C) system path mount :
  Forall (fun r => is_folder_req r = false) (reqs self) ->
  _reqs_to self system path mount =
  (list_or_empty (_reqs self),
   if truthy_opt_req (working_dir self) then working_dir self else None).
Proof.
  intros Hall. rewrite reqs_to_rebases_each. unfold reqs in Hall.
  apply Forall_app in Hall as [Hreqs Hwd]. f_equal.
  - induction Hreqs as [|r l Hr _ IH]; [done|].
    rewrite fmap_cons, IH. by rewrite req_to_not_folder.
  - destruct (truthy_opt_req (working_dir self)); [|done].
    destruct (working_dir self) as [w|]; [|done].
    apply Forall_inv in Hwd.
    unfold fmap, option_fmap, option_map. by rewrite req_to_not_folder.
Qed.

(** *** The client *)

Lemma snapshot_inv l h (n : Env) h' :
  snapshot l h = (Return n, h') ->
  exists e : EnvObj,
    envs h !! l = Some e /\
    ((compute e = None /\ n = with_compute e None) \/
     exists dl d, compute e = Some dl /\ dicts h !! dl = Some d /\
                  n = with_compute e (Some d)).
Proof.
  unfold snapshot, bind, read_env, read_dict, ret.
  destruct (envs h !! l) as [e|]; [|done].
  intros Hs. exists e. split; [done|].
  destruct (compute e) as [dl|] eqn:Hc.
  - right. destruct (dicts h !! dl) as [d|] eqn:Hd; [|done].
    exists dl, d. split_and!; congruence.
  - left. split; congruence.
Qed.

Lemma wp_call_ok c key method args h (Q : unit -> heap -> Prop) E :
  reliable ->
  Q tt (MkHeap (envs h) (dicts h) (sent h ++ [EvCall c key method args])) ->
  wp (call c key method args h) Q E.
Proof.
  intros (_ & Hrel & _) HQ. apply wp_call; [done|].
  intros e He. by rewrite Hrel in He.
Qed.

Lemma secrets_to_loop_exact (self : Env) system l h :
  reliable ->
  secrets_to_loop self system l h =
  (Return (moved_secret self system <$> l),
   MkHeap (envs h) (dicts h)
     (sent h ++ ((fun r => EvSecretTo (secret_of r) system) <$> l))).
Proof.
  intros Hrel. revert h. induction l as [|r l IH]; intros h.
  - cbn. rewrite app_nil_r. by destruct h.
  - cbn [secrets_to_loop fmap list_fmap].
    unfold bind at 1, send_event at 1, modify at 1.
    unfold bind at 1, lift at 1. unfold moved_secret at 1.
    change (match r with SecretName s => Secret_from_name s | SecretObj s => s end)
      with (secret_of r).
    destruct Hrel as (? & ? & Hs). destruct (Hs (secret_of r) system self) as [s' ->].
    unfold bind at 1. rewrite IH by done. cbn. by rewrite <- app_assoc.
Qed.

Lemma snapshot_same l h h' (n : Env) :
  snapshot l h = (Return n, h) ->
  envs h' = envs h -> dicts h' = dicts h ->
  snapshot l h' = (Return n, h').
Proof.
  destruct h as [es ds t], h' as [es' ds' t']. cbn. intros Hs -> ->.
  revert Hs. unfold snapshot, bind, read_env, read_dict, ret. cbn.
  destruct (es !! l) as [e|]; [|done].
  destruct (compute e) as [dl|]; cbn.
  - destruct (ds !! dl); cbn; [|done]. by intros [= <-].
  - by intros [= <-].
Qed.

Lemma wp_snapshot l h (n : Env) (Q : Env -> heap -> Prop) E :
  snapshot l h = (Return n, h) -> Q n h -> wp (snapshot l h) Q E.
Proof. intros Hs HQ. unfold wp. by rewrite Hs. Qed.

(** An assignment to an attribute other than [compute], seen through
    [snapshot]. *)
Lemma snapshot_update l h (n : Env) (f : EnvObj -> EnvObj) (g : Env -> Env) e t :
  snapshot l h = (Return n, h) ->
  envs h !! l = Some e ->
  compute (f e) = compute e ->
  (forall c : option pydict, with_compute (f e) c = g (with_compute e c)) ->
  snapshot l (MkHeap (<[l := f e]> (envs h)) (dicts h) t)
  = (Return (g n), MkHeap (<[l := f e]> (envs h)) (dicts h) t).
Proof.
  destruct h as [es ds t0]. cbn [envs dicts]. intros Hs He Hc Hg.
  revert Hs. unfold snapshot, bind, read_env, read_dict, ret.
  cbn [envs dicts]. rewrite lookup_insert_eq, He, Hc.
  destruct (compute e) as [dl|]; cbv beta iota; cbn [envs dicts].
  - destruct (ds !! dl); cbv beta iota; [|done]. intros [= <-]. by rewrite Hg.
  - intros [= <-]. by rewrite Hg.
Qed.

Lemma snapshot_frame l l' h (n : Env) (e' : EnvObj) t :
  snapshot l h = (Return n, h) -> l <> l' ->
  snapshot l (MkHeap (<[l' := e']> (envs h)) (dicts h) t)
  = (Return n, MkHeap (<[l' := e']> (envs h)) (dicts h) t).
Proof.
  destruct h as [es ds t0]. cbn [envs dicts]. intros Hs Hne.
  revert Hs. unfold snapshot, bind, read_env, read_dict, ret.
  cbn [envs dicts]. rewrite lookup_insert_ne by done.
  destruct (es !! l) as [e|]; [|done].
  destruct (compute e) as [dl|]; cbv beta iota; cbn [envs dicts].
  - destruct (ds !! dl); cbv beta iota; [|done]. by intros [= <-].
  - by intros [= <-].
Qed.

Lemma secrets_to_exact self new c h (E N : Env) :
  reliable -> self <> new ->
  snapshot self h = (Return E, h) ->
  snapshot new h = (Return N, h) ->
  wp ((new_secrets <- _secrets_to self (SysCluster c) ;;
       update_env new (fun n =>
         MkEnv (name n) (_reqs n) (setup_cmds n) (env_vars n) (working_dir n)
           new_secrets (compute n))) h)
    (fun _ h' =>
       snapshot new h'
       = (Return (with_secrets N (moved_secret E (SysCluster c) <$> secrets E)),
          h') /\
       snapshot self h' = (Return E, h') /\
       sent h' =
         sent h ++ ((fun r => EvSecretTo (secret_of r) (SysCluster c)) <$> secrets E))
    (fun _ _ => False).
Proof.
  intros Hrel Hne HE HN.
  pose proof (snapshot_inv _ _ _ _ HN) as (n & Hn & _).
  wp_step. unfold _secrets_to. wp_step. eapply wp_snapshot; [exact HE|].
  unfold wp. rewrite secrets_to_loop_exact by done.
  eapply wp_update_env; [exact Hn|]. cbn [envs dicts sent]. split_and!.
  - apply (snapshot_update new
             (MkHeap (envs h) (dicts h) (sent h)) N
             (fun n => with_secrets n (moved_secret E (SysCluster c) <$> secrets E))
             (fun N => with_secrets N (moved_secret E (SysCluster c) <$> secrets E)));
      try done.
    by apply (snapshot_same _ h).
  - apply (snapshot_frame self new (MkHeap (envs h) (dicts h) (sent h)));
      [|done]. by apply (snapshot_same _ h).
  - done.
Qed.


Lemma to_cluster_exact self new c force_install h (E N : Env) :
  reliable -> self <> new ->
  snapshot self h = (Return E, h) ->
  snapshot new h = (Return N, h) ->
  wp (to_cluster self new c force_install h)
    (fun _ h' =>
       snapshot new h'
       = (Return (with_secrets N (moved_secret E (SysCluster c) <$> secrets E)),
          h') /\
       snapshot self h' = (Return E, h') /\
       sent h' = sent h ++ cluster_requests c E N force_install)
    (fun _ _ => False).
Proof.
  intros Hrel Hne HE HN. unfold to_cluster, cluster_requests, cluster_key.
  pose proof (snapshot_inv _ _ _ _ HE) as (e & He & HcE).
  assert (env_vars e = env_vars E) as Hv.
  { by destruct HcE as [[_ ->] | (? & ? & _ & _ & ->)]. }
  wp_step. eapply wp_snapshot; [exact HN|]. wp_step.
  destruct (truthy_opt_str (name N)) eqn:Hnamed.
  - do 2 wp_step. apply wp_lift; cycle 1.
    { intros e' He'. destruct Hrel as (Hp & _). destruct (Hp c N). congruence. }
    intros key ->. do 2 wp_step. rewrite Hv. wp_step.
    destruct (negb (is_empty (_process_env_vars (env_vars E)))).
    + apply wp_call_ok; [done|]. wp_step. apply wp_call_ok; [done|].
      eapply wp_mono;
        [apply (secrets_to_exact self new c _ E N);
           [done | done | by apply (snapshot_same _ h)
            | by apply (snapshot_same _ h)] | | done].
      cbv beta. intros ? h' (H1 & H2 & H3). split_and!; [done | done |].
      rewrite H3. cbn [sent]. by rewrite <- !app_assoc.
    + wp_step. wp_step. apply wp_call_ok; [done|].
      eapply wp_mono;
        [apply (secrets_to_exact self new c _ E N);
           [done | done | by apply (snapshot_same _ h)
            | by apply (snapshot_same _ h)] | | done].
      cbv beta. intros ? h' (H1 & H2 & H3). split_and!; [done | done |].
      rewrite H3. cbn [sent]. by rewrite <- !app_assoc.
  - wp_step. do 2 wp_step. rewrite Hv. wp_step.
    destruct (negb (is_empty (_process_env_vars (env_vars E)))).
    + apply wp_call_ok; [done|]. do 2 wp_step. apply wp_call_ok; [done|].
      apply wp_call_ok; [done|].
      eapply wp_mono;
        [apply (secrets_to_exact self new c _ E N);
           [done | done | by apply (snapshot_same _ h)
            | by apply (snapshot_same _ h)] | | done].
      cbv beta. intros ? h' (H1 & H2 & H3). split_and!; [done | done |].
      rewrite H3. cbn [sent]. by rewrite <- !app_assoc.
    + wp_step. do 2 wp_step. apply wp_call_ok; [done|].
      apply wp_call_ok; [done|].
      eapply wp_mono;
        [apply (secrets_to_exact self new c _ E N);
           [done | done | by apply (snapshot_same _ h)
            | by apply (snapshot_same _ h)] | | done].
      cbv beta. intros ? h' (H1 & H2 & H3). split_and!; [done | done |].
      rewrite H3. cbn [sent]. by rewrite <- !app_assoc.
Qed.

Lemma wp_and {S A} (r : outcome A * S) (Q1 Q2 : A -> S -> Prop)
    (E1 E2 : exn -> S -> Prop) :
  wp r Q1 E1 -> wp r Q2 E2 ->
  wp r (fun a s => Q1 a s /\ Q2 a s) (fun e s => E1 e s /\ E2 e s).
Proof. by destruct r as [[a|e] s]. Qed.

Lemma deepcopy_snapshot self h (E : Env) :
  snapshot self h = (Return E, h) ->
  wp (deepcopy self h)
    (fun new h1 => snapshot new h1 = (Return E, h1)) (fun _ _ => True).
Proof.
  intros (e & He & Hc)%snapshot_inv. unfold deepcopy. do 3 wp_step.
  destruct Hc as [[Hc ->] | (dl & d & Hc & Hd & ->)]; rewrite Hc.
  - wp_step. apply wp_alloc_env. intros new _.
    unfold snapshot, bind, read_env, ret. cbn [envs dicts].
    by rewrite lookup_insert_eq.
  - do 3 wp_step. apply wp_alloc_dict. intros l _. wp_step.
    apply wp_alloc_env. intros new _.
    unfold snapshot, bind, read_env, read_dict, ret. cbn [envs dicts].
    rewrite lookup_insert_eq. cbn [compute with_compute]. cbv beta.
    cbn [envs dicts sent]. by rewrite lookup_insert_eq.
Qed.

Lemma update_snapshot l h (n : Env) (f : EnvObj -> EnvObj) (g : Env -> Env) :
  snapshot l h = (Return n, h) ->
  (forall e, compute (f e) = compute e) ->
  (forall e (c : option pydict), with_compute (f e) c = g (with_compute e c)) ->
  wp (update_env l f h)
    (fun _ h' => snapshot l h' = (Return (g n), h')) (fun _ _ => True).
Proof.
  intros Hs Hc Hg. pose proof (snapshot_inv _ _ _ _ Hs) as (e & He & _).
  eapply wp_update_env; [exact He|]. by apply snapshot_update.
Qed.

Lemma with_compute_id {C} (n : Env_ C) : with_compute n (compute n) = n.
Proof. by destruct n. Qed.

Lemma to_node_idx_snapshot new c node_idx h (N : Env) :
  snapshot new h = (Return N, h) ->
  wp (to_node_idx new c node_idx h)
    (fun _ h' =>
       snapshot new h'
       = (Return (with_compute N
                    (compute_to (SysCluster c) node_idx (compute N))), h'))
    (fun _ _ => True).
Proof.
  intros Hs. pose proof (snapshot_inv _ _ _ _ Hs) as (n & Hn & Hc).
  unfold to_node_idx, compute_to. destruct node_idx as [k|]; cycle 1.
  { wp_step. by rewrite with_compute_id. }
  destruct (k >=? Z.of_nat (length (ips c))); [by wp_step|].
  do 3 wp_step.
  destruct Hc as [[Hc ->] | (dl & d & Hc & Hd & ->)]; rewrite Hc.
  - wp_step. apply wp_alloc_dict. intros l _. do 3 wp_step.
    cbn [compute with_compute envs dicts sent]. wp_step.
    unfold snapshot, bind, read_env, read_dict, ret. cbn [envs dicts].
    rewrite lookup_insert_eq. cbn [compute with_compute]. cbv beta.
    cbn [envs dicts sent]. by rewrite lookup_insert_eq.
  - do 3 wp_step. rewrite Hc. wp_step.
    unfold snapshot, bind, read_env, read_dict, ret. cbn [envs dicts].
    rewrite Hn, Hc. cbv beta. cbn [envs dicts sent compute with_compute].
    by rewrite lookup_insert_eq.
Qed.

Lemma _reqs_to_with_compute {C D} (e : Env_ C) (c : option D) system path mount :
  _reqs_to (with_compute e c) system path mount = _reqs_to e system path mount.
Proof. reflexivity. Qed.

Lemma to_exact self system node_idx path mount force_install h (E : Env) :
  snapshot self h = (Return E, h) ->
  in_bounds (_get_cluster_from system) node_idx ->
  (forall c, _get_cluster_from system = SysCluster c -> reliable) ->
  wp (to self system node_idx path mount force_install h)
    (fun new h' =>
       envs h !! new = None /\
       snapshot new h' = (Return (sent_to E system node_idx path mount), h') /\
       snapshot self h' = (Return E, h') /\
       sent h' =
         sent h ++ to_requests E system node_idx path mount force_install)
    (fun _ _ => False).
Proof.
  intros HE Hin Hrel.
  pose proof (snapshot_readable _ _ _ _ HE) as Hread.
  pose proof (snapshot_inv _ _ _ _ HE) as (e & He & HcE).
  unfold to, sent_to, to_requests, rebased. cbv zeta.
  remember (_get_cluster_from system) as sys eqn:Hsys.
  wp_step. eapply wp_mono;
    [apply wp_and; [by apply deepcopy_spec | by apply deepcopy_snapshot]
    | cbv beta | by intros ?? [[] _]].
  intros new h1 [[Hf1 Hs1] Hn1].
  assert (envs h1 !! self = Some e) as He1 by (by apply Hf1).
  do 3 wp_step. eapply wp_mono;
    [apply wp_and;
       [by apply (update_attrs_spec h new h1 _ (fun _ _ => False))
       | by apply (update_snapshot new h1 E _
           (fun N => MkEnv (name N) (Some (_reqs_to e sys path mount).1)
                       (setup_cmds N) (env_vars N)
                       (_reqs_to e sys path mount).2
                       (secrets N) (compute N)))]
    | cbv beta | by intros ?? [[] _]].
  intros ? h2 [(Hf2 & Hs2 & _) Hn2].
  assert (_reqs_to e = _reqs_to E) as Hreqs
    by (by destruct HcE as [[_ ->] | (? & ? & _ & _ & ->)]).
  rewrite Hreqs in Hn2. wp_step.
  destruct sys as [s|c].
  - do 2 wp_step. split_and!.
    + apply Hf1.
    + done.
    + apply (snapshot_stable _ h); [done | apply Hf2].
    + rewrite app_nil_r. congruence.
  - wp_step. eapply wp_mono;
      [apply wp_and;
         [by apply (to_node_idx_spec h new c node_idx h2)
         | by apply (to_node_idx_snapshot new c node_idx h2)]
      | cbv beta | cbv beta].
    + intros ? h3 [(Hf3 & Hs3 & _) Hn3].
      eapply wp_mono;
        [apply (to_cluster_exact self new c force_install h3 E);
           [by apply (Hrel c) | | | exact Hn3]
        | cbv beta | done].
      * destruct Hf1 as (_ & Hnew & _). congruence.
      * apply (snapshot_stable _ h); [done | apply Hf3].
      * intros ? h4 (H1 & H2 & H3). wp_step. split_and!.
        -- apply Hf1.
        -- done.
        -- done.
        -- rewrite H3, Hs3, Hs2, Hs1. reflexivity.
    + intros e' h3 [(_ & k & -> & Hk & _) _].
      specialize (Hin c k eq_refl eq_refl). lia.
Qed.

(** *** [Env.to]: what is returned and what is sent *)





End WithExternals.

(** *** The properties at work in the concrete world *)


Lemma install_keeps_cache_entries_witness :
  1910498479240049039 ∈
    dom (installed_envs
           (install (H := Demo.world) Demo.broken_env false None
              Demo.installed_once).2).
Proof.
  apply (proj1 (install_keeps_cache_entries (H := Demo.world)
                  Demo.broken_env false None Demo.installed_once _ _
                  (surjective_pairing _))).
  apply elem_of_dom. eexists. vm_compute. reflexivity.
Defined.


Lemma reqs_to_without_folders_witness :
  _reqs_to (H := Demo.world) Demo.client_env (SysCluster Demo.two_nodes)
    None false
  = ([ReqStr "numpy"], Some (ReqStr "./")).
Proof.
  apply (reqs_to_without_folders (H := Demo.world) Demo.client_env).
  repeat constructor.
Defined.

Lemma two_nodes_in_bounds :
  in_bounds (SysCluster Demo.two_nodes) (Some 1).
Proof. intros c k [= <-] [= <-]. simpl. lia. Qed.





End EnvExtra.

(** ** More properties of the callable references *)

Module SendExtra.
Import SendModel SendProps SendMore.

Lemma append_inj_l (a s1 s2 : string) : a +:+ s1 = a +:+ s2 -> s1 = s2.
Proof. induction a as [|c a IH]; [done|]. cbn. intros [= Heq]. by apply IH. Qed.

Section WithExternals.
Context `{Externals}.


(** X12. Without [write] or [read] access, [__call__] refuses before it
    logs or sends anything: with [RuntimeError] when the access level is
    not [proxy], with [ValueError] when it is [proxy] and no token is
    saved. *)
Theorem call_refused_before_any_request (self : Send) args kwargs t :
  has_ssh_access self = false ->
  (access self <> ResourceAccess_proxy ->
   __call__ self args kwargs t =
   (Raise (Exn "RuntimeError" "Running http url requires proxy access"), t)) /\
  (access self = ResourceAccess_proxy -> truthy_opt_str rns_token = false ->
   __call__ self args kwargs t =
   (Raise (Exn "ValueError"
      "Token must be saved in the local .rh config in order to use an http url"),
    t)).
Proof.
  intros Hno. unfold __call__. rewrite Hno. split.
  - intros Hne. by apply String.eqb_neq in Hne as ->.
  - intros -> Htok. cbn. by rewrite Htok.
Qed.


(** X14. A callable reference without function pointers cannot be run
    over SSH: [_call_fn_with_ssh_access] raises [RuntimeError] after the
    log line and before anything is sent to the cluster. *)
Theorem ssh_call_without_fn_pointers (self : Send) fn_type args kwargs t :
  fn_pointers self = None ->
  _call_fn_with_ssh_access self fn_type args kwargs t =
  (Raise (Exn "RuntimeError"
            ("No fn pointers saved for " +:+ display_name self)),
   t ++ [EvLogInfo ("Running " +:+ display_name self +:+ " via SSH")]) /\
  transmitted (t ++ [EvLogInfo ("Running " +:+ display_name self +:+ " via SSH")])
  = transmitted t.
Proof.
  intros Hnone. split.
  - unfold _call_fn_with_ssh_access. by rewrite Hnone.
  - rewrite transmitted_app. apply app_nil_r.
Qed.


End WithExternals.

Section Url.
Context `{UrlExternals}.

(** X16. The URL [http_url] returns is
    [{api_server_url}/proxy/{resource_uri}/endpoint], while the URL inside
    the curl command it returns for the same reference has the path
    [/proxyproxy/{resource_uri}/endpoint]: the two differ. *)
Theorem curl_command_url (self : Send) args kwargs :
  is_jsonable args = true -> is_jsonable kwargs = true ->
  exists url rest,
    SendMore.http_url self false args kwargs = Return url /\
    url = api_server_url +:+ "/proxy/" +:+ resource_uri (name self)
          +:+ "/endpoint" /\
    SendMore.http_url self true args kwargs
    = Return ("curl -X 'POST' '" +:+ api_server_url +:+ "/proxyproxy/"
              +:+ resource_uri (name self) +:+ "/endpoint" +:+ rest) /\
    api_server_url +:+ "/proxyproxy/" +:+ resource_uri (name self)
      +:+ "/endpoint" <> url.
Proof.
  intros Ha Hk. eexists _, _. unfold SendMore.http_url. rewrite Ha, Hk.
  cbn [negb orb]. split_and!.
  - reflexivity.
  - reflexivity.
  - reflexivity.
  - intros Heq%append_inj_l. discriminate.
Qed.

End Url.

Section Init.
Context `{InitExternals}.

(** X17. In a dry run, or with an access level other than [write] and
    [read], [__init__] makes no request to the hardware and logs nothing;
    the access level is the one given, or [write] when none (or an empty
    one) is given. *)
Theorem init_without_setup fn_pointers hardware name reqs image dryrun
    access t :
  dryrun = true \/
  (truthy_opt_str access = true /\ access <> Some "write" /\
   access <> Some "read") ->
  exists obj,
    __init__ fn_pointers hardware name reqs image dryrun access t
    = (Return obj, t) /\
    obj_hardware obj = hardware /\
    obj_access obj = (if truthy_opt_str access then opt_str access else "write").
Proof.
  intros Hcase. eexists. unfold __init__.
  assert (negb dryrun &&
          bool_decide ((if truthy_opt_str access then opt_str access else "write")
                       ∈ ["write"; "read"]) = false) as ->.
  { destruct Hcase as [-> | (Ht & Hw & Hr)]; [done|].
    rewrite Ht. apply andb_false_intro2, bool_decide_eq_false_2.
    destruct access as [a|]; [|done]. cbn.
    intros [->|[->|[]%elem_of_nil]%elem_of_cons]%elem_of_cons; done. }
  done.
Qed.

(** X18. Outside a dry run, with [write] or [read] access (or none
    given), [__init__] asks the hardware whether it is up, brings it up
    only when it is not, and then installs the requirements on it, in this
    order; the requirements default to the working directory
    ([reqs:<working dir>]). *)
Theorem init_sets_up_hardware fn_pointers hw name reqs image access t :
  access = None \/ access = Some "" \/ access = Some "write" \/
  access = Some "read" ->
  exists obj t',
    __init__ fn_pointers (Some hw) name reqs image false access t
    = (Return obj, t') /\
    hardware_requests t' =
      hardware_requests t
      ++ [EvIsUp hw]
      ++ (if hardware_is_up hw then [] else [EvUp hw])
      ++ [EvInstallPackages hw (obj_reqs obj)] /\
    obj_reqs obj =
      match reqs with
      | None => [EnvModel.ReqStr ("reqs:" +:+ locate_working_dir)]
      | Some reqs => reqs
      end.
Proof.
  intros Hacc. unfold __init__.
  assert (bool_decide ((if truthy_opt_str access then opt_str access else "write")
                       ∈ ["write"; "read"]) = true) as ->.
  { apply bool_decide_eq_true_2.
    destruct Hacc as [-> | [-> | [-> | ->]]]; cbn; set_solver. }
  cbn [negb andb]. unfold reup_cluster, bind, init_log, modify, ret.
  destruct (hardware_is_up hw); cbn [negb fst snd].
  - eexists _, _. split; [reflexivity|]. split; [|done].
    unfold hardware_requests. rewrite !List.filter_app. cbn.
    by rewrite <- !app_assoc.
  - eexists _, _. split; [reflexivity|]. split; [|done].
    unfold hardware_requests. rewrite !List.filter_app. cbn.
    by rewrite <- !app_assoc.
Qed.

End Init.
(** *** The properties at work in the concrete world *)


Lemma call_refused_before_any_request_witness :
  __call__ (H := Demo.send_world) DemoMore.odd_send (PList []) (PDict []) []
  = (Raise (Exn "RuntimeError" "Running http url requires proxy access"), []) /\
  __call__ (H := DemoMore.no_token_world) Demo.proxy_send (PList []) (PDict []) []
  = (Raise (Exn "ValueError"
       "Token must be saved in the local .rh config in order to use an http url"),
     []).
Proof.
  split.
  - apply (proj1 (call_refused_before_any_request (H := Demo.send_world)
                    DemoMore.odd_send (PList []) (PDict []) [] eq_refl)).
    discriminate.
  - apply (proj2 (call_refused_before_any_request (H := DemoMore.no_token_world)
                    Demo.proxy_send (PList []) (PDict []) [] eq_refl));
      reflexivity.
Defined.


Lemma ssh_call_without_fn_pointers_witness :
  _call_fn_with_ssh_access (H := Demo.send_world) DemoMore.empty_send "call"
    (PList []) (PDict []) []
  = (Raise (Exn "RuntimeError"
              ("No fn pointers saved for " +:+ display_name DemoMore.empty_send)),
     [EvLogInfo ("Running " +:+ display_name DemoMore.empty_send +:+ " via SSH")]).
Proof.
  apply (ssh_call_without_fn_pointers (H := Demo.send_world)
           DemoMore.empty_send "call" (PList []) (PDict []) [] eq_refl).
Defined.


Lemma curl_command_url_witness :
  exists rest,
    SendMore.http_url (H := DemoMore.url_world) Demo.proxy_send false
      (PList []) (PDict [])
    = Return "https://api.run.house/proxy/summer/endpoint" /\
    SendMore.http_url (H := DemoMore.url_world) Demo.proxy_send true
      (PList []) (PDict [])
    = Return ("curl -X 'POST' 'https://api.run.house/proxyproxy/summer/endpoint"
              +:+ rest).
Proof.
  destruct (curl_command_url (H := DemoMore.url_world) Demo.proxy_send
              (PList []) (PDict []) eq_refl eq_refl)
    as (url & rest & Hurl & -> & Hcurl & _).
  exists rest. split; [exact Hurl | exact Hcurl].
Defined.

Lemma init_without_setup_witness :
  exists obj,
    __init__ (H := DemoMore.init_world) (Some (None, "mod", "fn")) (Some "down")
      (Some "summer") None None false (Some "proxy") []
    = (Return obj, []) /\
    obj_hardware obj = Some "down" /\ obj_access obj = "proxy".
Proof.
  apply (init_without_setup (H := DemoMore.init_world)). right.
  split_and!; [reflexivity | discriminate | discriminate].
Defined.

Lemma init_sets_up_hardware_witness :
  exists obj t',
    __init__ (H := DemoMore.init_world) (Some (None, "mod", "fn")) (Some "down")
      (Some "summer") None None false None []
    = (Return obj, t') /\
    hardware_requests t' =
      [EvIsUp "down"; EvUp "down";
       EvInstallPackages "down" [EnvModel.ReqStr "reqs:/home/user/project"]].
Proof.
  destruct (init_sets_up_hardware (H := DemoMore.init_world)
              (Some (None, "mod", "fn")) "down" (Some "summer") None None None
              [] (or_introl eq_refl))
    as (obj & t' & Hinit & Hreq & Hreqs).
  exists obj, t'. split; [exact Hinit|].
  rewrite Hreq, Hreqs. reflexivity.
Defined.

End SendExtra.

(** ** Properties of the environment helpers *)

Module UtilsExtra.
Import EnvModel UtilsModel.

Section Reqs.
Context `{ReqExternals}.

Lemma process_req_raises package e :
  process_req package = Raise e ->
  package = IStr "" /\ e = Exn "IndexError" "string index out of range".
Proof.
  unfold process_req. destruct package as [s|d|p|o]; try done.
  destruct s as [|c s]; [by intros [= <-]|].
  destruct (_ && _); [done|]. by destruct (_ || _).
Qed.


(** X20. [_process_reqs] works element by element and keeps the order: a
    dictionary becomes the package of that configuration, a string stays
    as it is or becomes its package or the configuration loaded from its
    address, and a [Package] or any other object is left alone. *)
Theorem process_reqs_elementwise (reqs preprocessed_reqs : list item) i package :
  _process_reqs reqs = Return preprocessed_reqs ->
  reqs !! i = Some package ->
  exists package',
    preprocessed_reqs !! i = Some package' /\
    match package with
    | IStr s =>
        package' = package \/ package' = IPkg (from_string s) \/
        package' = IDict (rns_load_config s)
    | IDict d => package' = IPkg (from_config d)
    | _ => package' = package
    end.
Proof.
  revert preprocessed_reqs i.
  induction reqs as [|r reqs IH]; intros l i Hp Hi; [done|].
  cbn [_process_reqs] in Hp.
  destruct (process_req r) as [r'|] eqn:Hr; [|done].
  destruct (_process_reqs reqs) as [l'|]; [|done].
  injection Hp as <-. destruct i as [|i]; cbn in Hi |- *.
  - injection Hi as ->. exists r'. split; [done|].
    unfold process_req in Hr. destruct package as [s|d|p|o].
    + destruct s as [|c s]; [done|].
      destruct (_ && _); [injection Hr as <-; auto|].
      destruct (_ || _); injection Hr as <-; auto.
    + by injection Hr as <-.
    + by injection Hr as <-.
    + by injection Hr as <-.
  - by apply IH.
Qed.

End Reqs.

Section GetEnv.
Context `{EnvExternals}.

(** X21. Given a list of requirements, [_get_env_from] always returns an
    environment without a name; its [reqs] are the list followed by the
    working directory ["./"], except for the empty list, whose
    environment has no working directory and no requirements. *)
Theorem get_env_from_list (l : list req) :
  exists e,
    _get_env_from (ELList l) = Return (ELEnv e) /\
    name e = None /\
    reqs e = (if is_empty l then [] else l ++ [ReqStr "./"]).
Proof.
  unfold _get_env_from. destruct l as [|r l].
  - eexists. split; [reflexivity|]. done.
  - eexists. split; [reflexivity|]. done.
Qed.

(** X22. Given a string, [_get_env_from] returns the string itself when
    it contains the name of the default environment, when the naming
    service does not know it, and when the lookup or the loading raises
    [ValueError]; it returns the loaded environment when the name is
    known and loads. *)
Theorem get_env_from_name (s : string) :
  (SendModel.contains EMPTY_DEFAULT_ENV_NAME s = true ->
   _get_env_from (ELStr s) = Return (ELStr s)) /\
  (forall e, exn_type e = "ValueError" ->
     rns_exists_env s = Raise e \/
     (rns_exists_env s = Return true /\ Env_from_name s = Raise e) ->
     _get_env_from (ELStr s) = Return (ELStr s)) /\
  (rns_exists_env s = Return false ->
   _get_env_from (ELStr s) = Return (ELStr s)) /\
  (forall env, SendModel.contains EMPTY_DEFAULT_ENV_NAME s = false ->
     rns_exists_env s = Return true -> Env_from_name s = Return env ->
     _get_env_from (ELStr s) = Return (ELEnv env)).
Proof.
  unfold _get_env_from. split_and!.
  - by intros ->.
  - intros e He Hraise.
    destruct (SendModel.contains EMPTY_DEFAULT_ENV_NAME s); [done|].
    cbn [negb]. destruct Hraise as [-> | [-> ->]]; by rewrite He.
  - intros ->. by destruct (SendModel.contains EMPTY_DEFAULT_ENV_NAME s).
  - by intros env -> -> ->.
Qed.

End GetEnv.

(** *** [_get_conda_yaml] *)

Lemma has_key_pip_append x d : has_key "pip" (pip_append x d) = has_key "pip" d.
Proof.
  induction d as [|[k v] d IH]; [done|]. cbn -[String.eqb].
  destruct (String.eqb "pip" k) eqn:Hk; cbn -[String.eqb]; rewrite ?Hk;
    [done|]. apply IH.
Qed.

Lemma pip_list_append x d :
  has_key "pip" d = true -> pip_list (pip_append x d) = pip_list d ++ [x].
Proof.
  induction d as [|[k v] d IH]; [done|]. cbn -[String.eqb].
  destruct (String.eqb "pip" k) eqn:Hk; cbn -[String.eqb]; rewrite ?Hk;
    [done|]. apply IH.
Qed.

Lemma has_ray_append d :
  has_key "pip" d = true -> has_ray (pip_append ray_requirement d) = true.
Proof.
  intros Hk. unfold has_ray. rewrite pip_list_append by done.
  rewrite existsb_app. apply orb_true_intro. by right.
Qed.

Lemma add_ray_ok (d : dep) :
  pip_in (add_ray d) = pip_in d /\ is_pip_dict (add_ray d) = is_pip_dict d /\
  pip_dict_has_ray (add_ray d) = true /\
  (pip_dict_has_ray d = true -> add_ray d = d).
Proof.
  destruct d as [s|d]; cbn -[String.eqb has_key has_ray]; [done|].
  destruct (has_key "pip" d) eqn:Hk; cbn -[String.eqb has_key has_ray];
    [|by rewrite Hk].
  destruct (has_ray d) eqn:Hr; cbn -[String.eqb has_key has_ray];
    [by rewrite Hk, Hr|].
  by rewrite has_key_pip_append, Hk, has_ray_append.
Qed.

Lemma existsb_fmap {A B} (f : A -> B) (p : B -> bool) (l : list A) :
  existsb p (f <$> l) = existsb (fun x => p (f x)) l.
Proof. induction l as [|x l IH]; [done|]. cbn. by rewrite IH. Qed.

Lemma existsb_pointwise {A} (p q : A -> bool) (l : list A) :
  (forall x, p x = q x) -> existsb p l = existsb q l.
Proof. intros Hpq. induction l as [|x l IH]; [done|]. cbn. by rewrite Hpq, IH. Qed.

Lemma with_ray_ensures (y : conda_yaml) :
  existsb pip_in (deps_of (with_ray y)) = true /\
  existsb is_pip_dict (deps_of (with_ray y)) = true /\
  forallb pip_dict_has_ray (deps_of (with_ray y)) = true /\
  yaml_rest (with_ray y) = yaml_rest y.
Proof.
  unfold with_ray, deps_of. cbn [dependencies yaml_rest].
  set (deps0 := match dependencies y with Some l => l | None => [] end).
  set (deps1 := if negb (existsb pip_in deps0) then deps0 ++ [DepStr "pip"]
                else deps0).
  assert (existsb pip_in deps1 = true) as Hpip.
  { subst deps1. destruct (existsb pip_in deps0) eqn:Hp; [done|].
    cbn [negb]. rewrite existsb_app. apply orb_true_intro. by right. }
  destruct (existsb is_pip_dict deps1) eqn:Hdict; cbn [negb].
  - split_and!; [| | |done].
    + rewrite existsb_fmap. etransitivity; [|exact Hpip].
      apply existsb_pointwise. intros d. apply (add_ray_ok d).
    + rewrite existsb_fmap. etransitivity; [|exact Hdict].
      apply existsb_pointwise. intros d. apply (add_ray_ok d).
    + apply forallb_forall. intros d' (d & <- & _)%in_map_iff.
      apply (add_ray_ok d).
  - split_and!; [| | |done].
    + rewrite existsb_app. apply orb_true_intro. by left.
    + rewrite existsb_app. apply orb_true_intro. by right.
    + rewrite forallb_app. apply andb_true_intro. split; [|done].
      apply forallb_forall. intros d Hd. destruct d as [s|d]; [done|].
      cbn -[has_key has_ray].
      destruct (has_key "pip" d) eqn:Hk; [|done].
      assert (existsb is_pip_dict deps1 = true) as Hex; [|congruence].
      apply existsb_exists. exists (DepDict d). by split.
Qed.

Lemma add_ray_fixed (l : list dep) :
  forallb pip_dict_has_ray l = true -> add_ray <$> l = l.
Proof.
  induction l as [|d l IH]; [done|]. cbn [forallb].
  intros [Hd Hl]%andb_prop. rewrite fmap_cons, IH by done. f_equal.
  by apply add_ray_ok.
Qed.

Lemma with_ray_idempotent (y : conda_yaml) :
  with_ray (with_ray y) = with_ray y.
Proof.
  destruct (with_ray_ensures y) as (Hpip & Hdict & Hray & Hrest).
  unfold with_ray at 1. fold (deps_of (with_ray y)).
  rewrite Hpip. cbn [negb]. rewrite Hdict. cbn [negb].
  rewrite add_ray_fixed by done.
  unfold with_ray, deps_of. done.
Qed.

Lemma with_ray_lookup (y : conda_yaml) i (d : dep) :
  deps_of y !! i = Some d -> deps_of (with_ray y) !! i = Some (add_ray d).
Proof.
  unfold with_ray, deps_of. cbn [dependencies].
  set (deps0 := match dependencies y with Some l => l | None => [] end).
  intros Hi.
  set (deps1 := if negb (existsb pip_in deps0) then deps0 ++ [DepStr "pip"]
                else deps0).
  assert (deps1 !! i = Some d) as Hi1.
  { subst deps1. destruct (negb _); [|done]. by apply lookup_app_l_Some. }
  destruct (existsb is_pip_dict deps1) eqn:Hdict; cbn [negb].
  - by rewrite list_lookup_fmap, Hi1.
  - apply lookup_app_l_Some. rewrite Hi1. f_equal. symmetry.
    apply add_ray_ok. destruct d as [s|d]; [done|].
    cbn -[has_key has_ray]. destruct (has_key "pip" d) eqn:Hk; [|done].
    assert (existsb is_pip_dict deps1 = true) as Hex; [|congruence].
    apply existsb_exists. exists (DepDict d). split; [|done].
    by eapply list_elem_of_In, list_elem_of_lookup_2.
Qed.

Section Conda.
Context `{CondaExternals}.

Lemma get_conda_yaml_inv (conda_env : option conda_env_arg) y :
  _get_conda_yaml conda_env = Return (Some y) -> exists y0, y = with_ray y0.
Proof.
  unfold _get_conda_yaml. destruct (negb (conda_env_truthy conda_env)); [done|].
  destruct conda_env as [[s|y0]|]; [| |done].
  - destruct (yaml_path_exists s); [intros [= <-]; by eexists|].
    destruct (SendModel.contains _ _); [intros [= <-]; by eexists|done].
  - intros [= <-]. by eexists.
Qed.

(** X23. Every conda environment [_get_conda_yaml] returns lists [pip]
    among its dependencies, has a dependency that is a mapping with a
    ["pip"] entry, and every such mapping lists a requirement on [ray]. *)
Theorem conda_yaml_requires_ray (conda_env : option conda_env_arg) y :
  _get_conda_yaml conda_env = Return (Some y) ->
  existsb pip_in (deps_of y) = true /\
  existsb is_pip_dict (deps_of y) = true /\
  forallb pip_dict_has_ray (deps_of y) = true.
Proof.
  intros [y0 ->]%get_conda_yaml_inv.
  destruct (with_ray_ensures y0) as (? & ? & ? & _). done.
Qed.

(** X24. [_get_conda_yaml] is idempotent: given a conda environment it
    returned, it returns it unchanged. *)
Theorem conda_yaml_is_fixed_point (conda_env : option conda_env_arg) y :
  _get_conda_yaml conda_env = Return (Some y) ->
  _get_conda_yaml (Some (CondaDict y)) = Return (Some y).
Proof.
  intros [y0 ->]%get_conda_yaml_inv.
  unfold _get_conda_yaml, conda_env_truthy.
  replace (dependencies (with_ray y0)) with (Some (deps_of (with_ray y0)))
    by done.
  rewrite andb_false_r. cbn [negb]. by rewrite with_ray_idempotent.
Qed.

(** X25. Given a dictionary, [_get_conda_yaml] keeps every key other than
    [dependencies], and keeps every dependency at its position: a mapping
    with a ["pip"] entry that lists no requirement on [ray] gets the
    requirement appended to that entry, every other dependency is
    unchanged. New dependencies are added at the end only. *)
Theorem conda_yaml_keeps_dependencies (y0 : conda_yaml) i (d : dep) :
  deps_of y0 !! i = Some d ->
  exists y,
    _get_conda_yaml (Some (CondaDict y0)) = Return (Some y) /\
    yaml_rest y = yaml_rest y0 /\
    deps_of y !! i = Some (add_ray d) /\
    (pip_dict_has_ray d = true -> deps_of y !! i = Some d).
Proof.
  intros Hi. exists (with_ray y0).
  assert (deps_of (with_ray y0) !! i = Some (add_ray d)) as Hlook
    by by apply with_ray_lookup.
  split_and!; [|done|done|].
  - unfold _get_conda_yaml, conda_env_truthy.
    unfold deps_of in Hi. destruct (dependencies y0); [|done].
    by rewrite andb_false_r.
  - intros Hd. rewrite Hlook. f_equal. by apply add_ray_ok.
Qed.


End Conda.

(** *** [install_conda] *)

Section Shell.
Context {World : Type}.
Context (CONDA_INSTALL_CMDS : list string).
Context (run_with_logs : string -> World -> Z * World).

Lemma run_all (cmds : list string) (w : World) (t : list shell_event) :
  for_each cmds (fun cmd => rc <- run_local run_with_logs cmd ;; ret tt) (w, t)
  = (Return tt, (after run_with_logs cmds w, t ++ (ShRun <$> cmds))).
Proof.
  revert w t. induction cmds as [|cmd cmds IH]; intros w t.
  - cbn. by rewrite app_nil_r.
  - cbn [for_each]. unfold bind at 1. unfold bind at 1, run_local at 1.
    cbn [fst snd ret]. rewrite IH. cbn. by rewrite <- app_assoc.
Qed.

Lemma commands_app t1 t2 : commands (t1 ++ t2) = commands t1 ++ commands t2.
Proof. apply omap_app. Qed.

Lemma commands_runs cmds : commands (ShRun <$> cmds) = cmds.
Proof. induction cmds as [|c l IH]; [done|]. cbn. by f_equal. Qed.

Lemma install_conda_unfold (w : World) (t : list shell_event) :
  install_conda CONDA_INSTALL_CMDS run_with_logs (w, t) =
  let check := run_with_logs "conda --version" w in
  if check.1 =? 0 then (Return tt, (check.2, t ++ [ShRun "conda --version"]))
  else
    let installed := after run_with_logs CONDA_INSTALL_CMDS check.2 in
    let check' := run_with_logs "conda --version" installed in
    ((if check'.1 =? 0 then Return tt
      else Raise (Exn "RuntimeError" "Could not install Conda.")),
     (check'.2,
      ((t ++ [ShRun "conda --version"])
       ++ [ShLogInfo "Conda is not installed. Installing..."])
      ++ (ShRun <$> CONDA_INSTALL_CMDS) ++ [ShRun "conda --version"])).
Proof.
  unfold install_conda. unfold bind at 1, run_local at 1. cbn [fst snd].
  destruct (run_with_logs "conda --version" w) as [rc w1]. cbn [fst snd].
  destruct (rc =? 0); cbn [negb]; [done|].
  unfold bind at 1, modify at 1. cbn [fst snd].
  unfold bind at 1. rewrite run_all.
  unfold bind at 1, run_local at 1. cbn [fst snd].
  destruct (run_with_logs "conda --version" _) as [rc' w2]. cbn [fst snd].
  destruct (rc' =? 0); cbn [negb raise ret]; by rewrite <- !app_assoc.
Qed.

(** X27. When [conda --version] succeeds, [install_conda] runs nothing
    else and returns. Otherwise it runs every command of
    [CONDA_INSTALL_CMDS] in order, whatever their return codes, checks
    again, and raises [RuntimeError] exactly when the second check fails
    too. *)
Theorem install_conda_runs (w : World) (t : list shell_event) :
  let check := run_with_logs "conda --version" w in
  let installed := after run_with_logs CONDA_INSTALL_CMDS check.2 in
  let check' := run_with_logs "conda --version" installed in
  let r := install_conda CONDA_INSTALL_CMDS run_with_logs (w, t) in
  (check.1 = 0 ->
   r = (Return tt, (check.2, t ++ [ShRun "conda --version"]))) /\
  (check.1 <> 0 ->
   commands r.2.2 =
     commands t ++ ["conda --version"] ++ CONDA_INSTALL_CMDS
     ++ ["conda --version"] /\
   r.2.1 = check'.2 /\
   r.1 = (if check'.1 =? 0 then Return tt
          else Raise (Exn "RuntimeError" "Could not install Conda."))).
Proof.
  intros check installed check' r. subst r.
  rewrite install_conda_unfold. cbv zeta. fold check. split.
  - by intros ->.
  - intros Hne%Z.eqb_neq. rewrite Hne. cbn [fst snd].
    split_and!; [|done..].
    rewrite !commands_app, commands_runs. cbn. by rewrite <- !app_assoc.
Qed.

End Shell.

(** *** The properties at work in the concrete world *)


Lemma process_reqs_elementwise_witness :
  exists package',
    [IStr "numpy"; IPkg (Demo.package_of_string "./")] !! 1%nat
    = Some package' /\
    (package' = IStr "./" \/
     package' = IPkg (Demo.package_of_string "./") \/
     package' = IDict [("name", PStr "./")]).
Proof.
  apply (process_reqs_elementwise (H := DemoMore.req_world)
           [IStr "numpy"; IStr "./"] _ 1%nat (IStr "./")); reflexivity.
Defined.

Lemma get_env_from_name_witness :
  _get_env_from (H := DemoMore.env_world) (ELStr "bad/name")
  = Return (ELStr "bad/name") /\
  _get_env_from (H := DemoMore.env_world) (ELStr "known")
  = Return (ELEnv (Demo.numpy_env (Some "known"))).
Proof.
  split.
  - apply (proj1 (proj2 (get_env_from_name (H := DemoMore.env_world)
                           "bad/name")) (Exn "ValueError" "invalid name"));
      [reflexivity | left; reflexivity].
  - apply (proj2 (proj2 (proj2 (get_env_from_name (H := DemoMore.env_world)
                                  "known")))); reflexivity.
Defined.

Lemma conda_yaml_requires_ray_witness :
  exists y,
    _get_conda_yaml (H := DemoMore.conda_world) (Some (CondaStr "base"))
    = Return (Some y) /\
    forallb pip_dict_has_ray (deps_of y) = true.
Proof.
  eexists. split; [reflexivity|].
  apply (conda_yaml_requires_ray (H := DemoMore.conda_world)
           (Some (CondaStr "base")) _ eq_refl).
Defined.

Lemma conda_yaml_is_fixed_point_witness :
  exists y,
    _get_conda_yaml (H := DemoMore.conda_world)
      (Some (CondaDict DemoMore.some_yaml)) = Return (Some y) /\
    _get_conda_yaml (H := DemoMore.conda_world) (Some (CondaDict y))
    = Return (Some y).
Proof.
  eexists. split; [reflexivity|].
  apply (conda_yaml_is_fixed_point (H := DemoMore.conda_world)
           (Some (CondaDict DemoMore.some_yaml)) _ eq_refl).
Defined.

Lemma conda_yaml_keeps_dependencies_witness :
  exists y,
    _get_conda_yaml (H := DemoMore.conda_world)
      (Some (CondaDict DemoMore.some_yaml)) = Return (Some y) /\
    deps_of y !! 1%nat
    = Some (DepDict [("pip", ["torch"; "diffusers"; ray_requirement])]).
Proof.
  destruct (conda_yaml_keeps_dependencies (H := DemoMore.conda_world)
              DemoMore.some_yaml 1%nat
              (DepDict [("pip", ["torch"; "diffusers"])]) eq_refl)
    as (y & Hy & _ & Hlook & _).
  exists y. split; [exact Hy | exact Hlook].
Defined.


Lemma install_conda_runs_witness :
  commands
    (install_conda DemoMore.install_cmds DemoMore.machine (0%nat, [])).2.2
  = ["conda --version"; "wget miniconda.sh"; "bash miniconda.sh -b";
     "conda --version"] /\
  (install_conda DemoMore.install_cmds DemoMore.machine (0%nat, [])).1
  = Return tt.
Proof.
  destruct (proj2 (install_conda_runs DemoMore.install_cmds DemoMore.machine
                     0%nat [])) as (Hcmds & _ & Hret).
  - discriminate.
  - split; [exact Hcmds | exact Hret].
Defined.

End UtilsExtra.
